(** * The kitty keyboard protocol codec ([kitty/key_encoding.py])

    A shallow embedding of the key event decoder and encoder, the shortcut
    parser, the event matcher and the window-system bridge, followed by the
    properties of the codec that the specification states. *)

From Stdlib Require Import ZArith List String Ascii Bool Lia.
Import ListNotations.
Open Scope Z_scope.

(** ** The Python runtime the module relies on *)

Module Py.

(** Exceptions the modelled code can raise. *)
Inductive exn : Set :=
| ValueError
| KeyError
| IndexError
| TypeError
| OverflowError.

(** A computation either returns a value or raises. *)
Inductive result (A : Type) : Type :=
| Return (a : A)
| Raise (e : exn).

Arguments Return {A} a.
Arguments Raise {A} e.

Definition bind {A B : Type} (m : result A) (k : A -> result B) : result B :=
  match m with
  | Return a => k a
  | Raise e => Raise e
  end.

(** [try: ... except Exception: handler] *)
Definition try_except {A : Type} (m : result A) (handler : result A) : result A :=
  match m with
  | Return a => Return a
  | Raise _ => handler
  end.

Fixpoint mapM {A B : Type} (f : A -> result B) (l : list A) : result (list B) :=
  match l with
  | [] => Return []
  | x :: r =>
      bind (f x) (fun y => bind (mapM f r) (fun ys => Return (y :: ys)))
  end.

(** A [str] is a sequence of code points. *)
Definition str : Type := list Z.

(** The Python literal with the given ASCII text. *)
Definition lit (s : string) : str :=
  map (fun a => Z.of_N (N_of_ascii a)) (list_ascii_of_string s).

Fixpoint str_eqb (a b : str) : bool :=
  match a, b with
  | [], [] => true
  | x :: a', y :: b' => (x =? y) && str_eqb a' b'
  | _, _ => false
  end.

(** Truthiness of a [str] and of an [int]. *)
Definition truthy_str (s : str) : bool :=
  match s with [] => false | _ :: _ => true end.

Definition truthy (n : Z) : bool := negb (n =? 0).

(** [seq[i]] for [0 <= i]. *)
Definition getitem {A : Type} (l : list A) (i : nat) : result A :=
  match nth_error l i with
  | Some x => Return x
  | None => Raise IndexError
  end.

(** [s[-1]] *)
Definition getitem_last (s : str) : result str :=
  match s with
  | [] => Raise IndexError
  | c :: r => Return [last r c]
  end.

(** [s[2:-1]] *)
Definition slice_2_m1 (s : str) : str := removelast (skipn 2 s).

(** [chr(i)]: [OverflowError] outside the C [int] range, [ValueError] outside
    [range(0x110000)]. *)
Definition chr (i : Z) : result str :=
  if (i <? - 2147483648) || (2147483647 <? i) then Raise OverflowError
  else if (i <? 0) || (1114111 <? i) then Raise ValueError
  else Return [i].

(** [ord(s)] *)
Definition ord (s : str) : result Z :=
  match s with
  | [c] => Return c
  | _ => Raise TypeError
  end.

(** [s.split(sep)] for a one-character separator. *)
Fixpoint split (sep : Z) (s : str) : list str :=
  match s with
  | [] => [[]]
  | c :: r =>
      if c =? sep then [] :: split sep r
      else match split sep r with
           | p :: ps => (c :: p) :: ps
           | [] => [[c]]
           end
  end.

(** [sep.join(l)] *)
Fixpoint join (sep : str) (l : list str) : str :=
  match l with
  | [] => []
  | [x] => x
  | x :: r => x ++ sep ++ join sep r
  end.

Fixpoint startswith (s p : str) : bool :=
  match p, s with
  | [], _ => true
  | a :: p', b :: s' => (a =? b) && startswith s' p'
  | _ :: _, [] => false
  end.

Definition endswith (s suffix : str) : bool := startswith (rev s) (rev suffix).

(** [needle in hay] on strings: the substring test. *)
Fixpoint contains (hay needle : str) : bool :=
  startswith hay needle
  || match hay with
     | [] => false
     | _ :: r => contains r needle
     end.

(** [str(n)] of an [int]. *)
Fixpoint digits_of (fuel : nat) (n : Z) : str :=
  match fuel with
  | O => []
  | S f =>
      if n <? 10 then [48 + n]
      else digits_of f (n / 10) ++ [48 + n mod 10]
  end.

Definition str_of_int (n : Z) : str :=
  if n <? 0 then 45 :: digits_of (S (Z.to_nat (Z.log2 (- n)))) (- n)
  else digits_of (S (Z.to_nat (Z.log2 n))) n.

Definition is_digit (c : Z) : bool := (48 <=? c) && (c <=? 57).

(** The white space [int()] skips once the text is ASCII. *)
Definition is_space (c : Z) : bool := (c =? 32) || ((9 <=? c) && (c <=? 13)).

Fixpoint lstrip (s : str) : str :=
  match s with
  | [] => []
  | c :: r => if is_space c then lstrip r else s
  end.

Definition strip (s : str) : str := rev (lstrip (rev (lstrip s))).

(** The digits of an [int()] literal: decimal digits, single underscores
    allowed between two digits only. *)
Fixpoint int_digits (acc : Z) (after_digit : bool) (s : str) : option Z :=
  match s with
  | [] => if after_digit then Some acc else None
  | c :: r =>
      if is_digit c then int_digits (10 * acc + (c - 48)) true r
      else if (c =? 95) && after_digit then int_digits acc false r
      else None
  end.

Section Interpreter.

(** The Unicode character database of the interpreter, on the code points
    above ASCII: which are white space, which are decimal digits (and of which
    value), and the upper-case mapping. *)
Variable uni_isspace : Z -> bool.
Variable uni_decimal : Z -> option Z.
Variable uni_upper : Z -> str.

(** The interpreter's cap on the digits of a conversion
    ([sys.get_int_max_str_digits()]; 0 where there is none). *)
Variable max_str_digits : Z.

(** The cap applies to more than 640 digits only. *)
Definition too_many_digits (digits : Z) : bool :=
  (640 <? digits) && (0 <? max_str_digits) && (max_str_digits <? digits).

(** Before parsing, [int()] maps a text that is not pure ASCII to ASCII:
    white space to a blank, decimal digits to ASCII digits, the rest to [?]. *)
Definition to_ascii (c : Z) : Z :=
  if c <? 127 then c
  else if uni_isspace c then 32
  else match uni_decimal c with
       | Some d => 48 + d
       | None => 63
       end.

Definition is_ascii (s : str) : bool := forallb (fun c => c <? 128) s.

(** [int(s)] in base 10. *)
Definition int (s : str) : result Z :=
  let s := if is_ascii s then s else map to_ascii s in
  let s := strip s in
  let '(sign, body) :=
    match s with
    | c :: r =>
        if c =? 43 then (1, r) else if c =? 45 then (-1, r) else (1, s)
    | [] => (1, s)
    end in
  match int_digits 0 false body with
  | Some v =>
      if too_many_digits (Z.of_nat (List.length (filter is_digit body)))
      then Raise ValueError
      else Return (sign * v)
  | None => Raise ValueError
  end.

(** [s.upper()]: character by character. *)
Definition upper (s : str) : str :=
  flat_map (fun c =>
              if (97 <=? c) && (c <=? 122) then [c - 32]
              else if c <? 128 then [c]
              else uni_upper c) s.

End Interpreter.

(** A [dict] keeps its items in insertion order. *)
Definition dict (K V : Type) : Type := list (K * V).

Section Dict.

Context {K V : Type}.
Variable eqb : K -> K -> bool.

Fixpoint dict_get (d : dict K V) (k : K) : option V :=
  match d with
  | [] => None
  | (k', v) :: r => if eqb k' k then Some v else dict_get r k
  end.

(** [d.get(k, default)] *)
Definition dict_get_or (d : dict K V) (k : K) (default : V) : V :=
  match dict_get d k with
  | Some v => v
  | None => default
  end.

(** [d[k]] *)
Definition dict_item (d : dict K V) (k : K) : result V :=
  match dict_get d k with
  | Some v => Return v
  | None => Raise KeyError
  end.

(** [k in d] *)
Definition dict_mem (d : dict K V) (k : K) : bool :=
  match dict_get d k with
  | Some _ => true
  | None => false
  end.

(** [d[k] = v] *)
Fixpoint dict_set (d : dict K V) (k : K) (v : V) : dict K V :=
  match d with
  | [] => [(k, v)]
  | (k', v') :: r =>
      if eqb k' k then (k', v) :: r else (k', v') :: dict_set r k v
  end.

End Dict.

(** [{v: k for k, v in d.items()}] *)
Definition dict_invert {K V : Type} (eqb : V -> V -> bool) (d : dict K V)
  : dict V K :=
  fold_left (fun acc kv => dict_set eqb acc (snd kv) (fst kv)) d [].

End Py.

Import Py.

Declare Scope py_scope.
Delimit Scope py_scope with py.
Notation "x <- m ;; k" := (Py.bind m (fun x => k))
  (at level 61, m at next level, right associativity) : py_scope.
Open Scope py_scope.

(** ** Number and name tables *)

Definition functional_key_number_to_name_map : dict Z str :=
  [ (57344, lit "ESCAPE");
    (57345, lit "ENTER");
    (57346, lit "TAB");
    (57347, lit "BACKSPACE");
    (57348, lit "INSERT");
    (57349, lit "DELETE");
    (57350, lit "LEFT");
    (57351, lit "RIGHT");
    (57352, lit "UP");
    (57353, lit "DOWN");
    (57354, lit "PAGE_UP");
    (57355, lit "PAGE_DOWN");
    (57356, lit "HOME");
    (57357, lit "END");
    (57358, lit "CAPS_LOCK");
    (57359, lit "SCROLL_LOCK");
    (57360, lit "NUM_LOCK");
    (57361, lit "PRINT_SCREEN");
    (57362, lit "PAUSE");
    (57363, lit "MENU");
    (57364, lit "F1");
    (57365, lit "F2");
    (57366, lit "F3");
    (57367, lit "F4");
    (57368, lit "F5");
    (57369, lit "F6");
    (57370, lit "F7");
    (57371, lit "F8");
    (57372, lit "F9");
    (57373, lit "F10");
    (57374, lit "F11");
    (57375, lit "F12");
    (57376, lit "F13");
    (57377, lit "F14");
    (57378, lit "F15");
    (57379, lit "F16");
    (57380, lit "F17");
    (57381, lit "F18");
    (57382, lit "F19");
    (57383, lit "F20");
    (57384, lit "F21");
    (57385, lit "F22");
    (57386, lit "F23");
    (57387, lit "F24");
    (57388, lit "F25");
    (57389, lit "F26");
    (57390, lit "F27");
    (57391, lit "F28");
    (57392, lit "F29");
    (57393, lit "F30");
    (57394, lit "F31");
    (57395, lit "F32");
    (57396, lit "F33");
    (57397, lit "F34");
    (57398, lit "F35");
    (57399, lit "KP_0");
    (57400, lit "KP_1");
    (57401, lit "KP_2");
    (57402, lit "KP_3");
    (57403, lit "KP_4");
    (57404, lit "KP_5");
    (57405, lit "KP_6");
    (57406, lit "KP_7");
    (57407, lit "KP_8");
    (57408, lit "KP_9");
    (57409, lit "KP_DECIMAL");
    (57410, lit "KP_DIVIDE");
    (57411, lit "KP_MULTIPLY");
    (57412, lit "KP_SUBTRACT");
    (57413, lit "KP_ADD");
    (57414, lit "KP_ENTER");
    (57415, lit "KP_EQUAL");
    (57416, lit "KP_SEPARATOR");
    (57417, lit "KP_LEFT");
    (57418, lit "KP_RIGHT");
    (57419, lit "KP_UP");
    (57420, lit "KP_DOWN");
    (57421, lit "KP_PAGE_UP");
    (57422, lit "KP_PAGE_DOWN");
    (57423, lit "KP_HOME");
    (57424, lit "KP_END");
    (57425, lit "KP_INSERT");
    (57426, lit "KP_DELETE");
    (57427, lit "MEDIA_PLAY");
    (57428, lit "MEDIA_PAUSE");
    (57429, lit "MEDIA_PLAY_PAUSE");
    (57430, lit "MEDIA_REVERSE");
    (57431, lit "MEDIA_STOP");
    (57432, lit "MEDIA_FAST_FORWARD");
    (57433, lit "MEDIA_REWIND");
    (57434, lit "MEDIA_TRACK_NEXT");
    (57435, lit "MEDIA_TRACK_PREVIOUS");
    (57436, lit "MEDIA_RECORD");
    (57437, lit "LOWER_VOLUME");
    (57438, lit "RAISE_VOLUME");
    (57439, lit "MUTE_VOLUME");
    (57440, lit "LEFT_SHIFT");
    (57441, lit "LEFT_CONTROL");
    (57442, lit "LEFT_ALT");
    (57443, lit "LEFT_SUPER");
    (57444, lit "LEFT_HYPER");
    (57445, lit "RIGHT_SHIFT");
    (57446, lit "RIGHT_CONTROL");
    (57447, lit "RIGHT_ALT");
    (57448, lit "RIGHT_SUPER");
    (57449, lit "RIGHT_HYPER");
    (57450, lit "ISO_LEVEL3_SHIFT");
    (57451, lit "ISO_LEVEL5_SHIFT") ].

Definition csi_number_to_functional_number_map : dict Z Z :=
  [ (2, 57348); (3, 57349); (5, 57354); (6, 57355); (7, 57356); (8, 57357);
    (9, 57346); (11, 57364); (12, 57365); (13, 57345); (14, 57367);
    (15, 57368); (17, 57369); (18, 57370); (19, 57371); (20, 57372);
    (21, 57373); (23, 57374); (24, 57375); (27, 57344); (127, 57347) ].

Definition letter_trailer_to_csi_number_map : dict str Z :=
  [ (lit "A", 57352); (lit "B", 57353); (lit "C", 57351); (lit "D", 57350);
    (lit "F", 8); (lit "H", 7); (lit "P", 11); (lit "Q", 12); (lit "R", 13);
    (lit "S", 14) ].

Definition tilde_trailers : list Z :=
  [ 57348; 57349; 57354; 57355; 57368; 57369; 57370; 57371; 57372; 57373;
    57374; 57375 ].

(** [fn in tilde_trailers] *)
Definition in_tilde_trailers (fn : Z) : bool :=
  existsb (Z.eqb fn) tilde_trailers.

Definition get_name_to_functional_number_map : dict str Z :=
  dict_invert str_eqb functional_key_number_to_name_map.

Definition get_functional_to_csi_number_map : dict Z Z :=
  dict_invert Z.eqb csi_number_to_functional_number_map.

Definition get_csi_number_to_letter_trailer_map : dict Z str :=
  dict_invert Z.eqb letter_trailer_to_csi_number_map.

(** ** Events and shortcuts *)

Definition PRESS : Z := 1.
Definition REPEAT : Z := 2.
Definition RELEASE : Z := 4.

Module EventType.

Inductive t : Set :=
| PRESS
| REPEAT
| RELEASE.

(** The integer value of a member of the [IntEnum]. *)
Definition value (ty : t) : Z :=
  match ty with
  | PRESS => 1
  | REPEAT => 2
  | RELEASE => 4
  end.

Definition eqb (a b : t) : bool :=
  match a, b with
  | PRESS, PRESS | REPEAT, REPEAT | RELEASE, RELEASE => true
  | _, _ => false
  end.

End EventType.

Module ParsedShortcut.

(** Modelled from the spec: [ParsedShortcut] of [kitty/types.py], a file that
    is not among the sources; the record [(mods, key_name)]. *)
Record t : Type := mk { mods : Z; key_name : str }.

End ParsedShortcut.

Module WindowSystemKeyEvent.

(** Modelled from the spec: the event of the windowing layer,
    [fast_data_types.KeyEvent], a native type that is not among the sources;
    the three key numbers, the mods, the action and the text, as the bridge
    fills them in. *)
Record t : Type := mk {
  key : Z;
  shifted_key : Z;
  alternate_key : Z;
  mods : Z;
  action : Z;
  text : str
}.

End WindowSystemKeyEvent.

Record KeyEvent : Type := mkKeyEvent {
  type : EventType.t;
  mods : Z;
  key : str;
  text : str;
  shifted_key : str;
  alternate_key : str;
  shift : bool;
  alt : bool;
  ctrl : bool;
  super : bool
}.

(** [KeyEvent()] with every field at its default. *)
Definition KeyEvent_default : KeyEvent :=
  mkKeyEvent EventType.PRESS 0 [] [] [] [] false false false false.

Definition SHIFT : Z := 1.
Definition ALT : Z := 2.
Definition CTRL : Z := 4.
Definition SUPER : Z := 8.

Definition enter_key : KeyEvent :=
  mkKeyEvent EventType.PRESS 0 (lit "ENTER") [] [] [] false false false false.

Definition backspace_key : KeyEvent :=
  mkKeyEvent EventType.PRESS 0 (lit "BACKSPACE") [] [] [] false false false false.

Definition config_mod_map : dict str Z :=
  [ (lit "SHIFT", SHIFT);
    (lit "ALT", ALT);
    (lit "OPTION", ALT);
    ([8997], ALT);
    ([8984], SUPER);
    (lit "CMD", SUPER);
    (lit "SUPER", SUPER);
    (lit "CTRL", CTRL);
    (lit "CONTROL", CTRL) ].

(** The start of every escape sequence, [ESC] and an opening bracket. *)
Definition CSI : str := [27; 91].

(** ** Sample data *)

(** Unicode data with nothing above ASCII: no further white space or digit,
    and no case mapping. *)
Definition ascii_isspace (c : Z) : bool := false.
Definition ascii_decimal (c : Z) : option Z := None.
Definition ascii_upper (c : Z) : str := [c].

(** The default digit cap of the interpreters that have one. *)
Definition default_max_str_digits : Z := 4300.

(** Values for the constants of the windowing layer. *)
Definition example_GLFW_PRESS : Z := 1.
Definition example_GLFW_REPEAT : Z := 2.
Definition example_GLFW_RELEASE : Z := 0.
Definition example_GLFW_MOD_SHIFT : Z := 1.
Definition example_GLFW_MOD_ALT : Z := 2.
Definition example_GLFW_MOD_CONTROL : Z := 4.
Definition example_GLFW_MOD_SUPER : Z := 8.

(** ctrl+shift+a, as decoded from [97;6 u]. *)
Definition ctrl_shift_a : KeyEvent :=
  mkKeyEvent EventType.PRESS 5 (lit "a") [] [] [] true false true false.

(** The key [A] alone. *)
Definition plain_A : KeyEvent :=
  mkKeyEvent EventType.PRESS 0 (lit "A") [] [] [] false false false false.

(** The key UP alone, as decoded from [A] after any payload. *)
Definition UP_key : KeyEvent :=
  mkKeyEvent EventType.PRESS 0 (lit "UP") [] [] [] false false false false.

(** The key ESCAPE alone, as decoded from [27 u]. *)
Definition ESCAPE_key : KeyEvent :=
  mkKeyEvent EventType.PRESS 0 (lit "ESCAPE") [] [] [] false false false false.

(** A few aliases of the kind the key-name layer supplies. *)
Definition example_functional_key_name_aliases : dict str str :=
  [ (lit "ESC", lit "ESCAPE"); (lit "RETURN", lit "ENTER");
    (lit "PGUP", lit "PAGE_UP"); (lit "DEL", lit "DELETE") ].

Definition example_character_key_name_aliases : dict str str :=
  [ (lit "SPACE", lit " "); (lit "PLUS", lit "+"); (lit "MINUS", lit "-") ].

(** shift+release of [a] with shifted key [A] and text [B], as decoded from
    [97:65;2:3;66 u]. *)
Definition shift_a_release : KeyEvent :=
  mkKeyEvent EventType.RELEASE 1 (lit "a") (lit "B") (lit "A") []
    true false false false.

(** shift+3 on a US layout. *)
Definition shift_3 : KeyEvent :=
  mkKeyEvent EventType.PRESS SHIFT (lit "3") (lit "#") (lit "#") []
    true false false false.

(** The key F3. *)
Definition F3_key : KeyEvent :=
  mkKeyEvent EventType.PRESS 0 (lit "F3") [] [] [] false false false false.

(** ctrl+shift+DELETE released, with text [x] and shifted key [A]. *)
Definition ctrl_shift_delete : KeyEvent :=
  mkKeyEvent EventType.RELEASE 5 (lit "DELETE") (lit "x") (lit "A") []
    true false true false.

(** The key U+0001 alone, as decoded from [1 u]. *)
Definition ctrl_a_char : KeyEvent :=
  mkKeyEvent EventType.PRESS 0 [1] [] [] [] false false false false.

(** The key [a] with the wire modifier value 2049, as decoded from
    [97;2049 u]. *)
Definition a_with_sentinel : KeyEvent :=
  mkKeyEvent EventType.PRESS 2048 (lit "a") [] [] [] false false false false.

Section KeyEncoding.

(** The Unicode data and the digit cap of the interpreter (see [Py.int] and
    [Py.upper]). *)
Variable uni_isspace : Z -> bool.
Variable uni_decimal : Z -> option Z.
Variable uni_upper : Z -> str.
Variable max_str_digits : Z.

(** The alias tables of [kitty/key_names.py]. *)
Variable functional_key_name_aliases : dict str str.
Variable character_key_name_aliases : dict str str.

(** The constants of [fast_data_types] the bridge uses. *)
Variable GLFW_PRESS GLFW_REPEAT GLFW_RELEASE : Z.
Variable GLFW_MOD_SHIFT GLFW_MOD_ALT GLFW_MOD_CONTROL GLFW_MOD_SUPER : Z.

Local Abbreviation int := (Py.int uni_isspace uni_decimal max_str_digits).
Local Abbreviation upper := (Py.upper uni_upper).

Definition parse_shortcut (spec : str) : ParsedShortcut.t :=
  let spec :=
    if endswith spec (lit "+") then removelast spec ++ lit "plus" else spec in
  let parts := split 43 spec in
  let key_name := last parts [] in
  let key_name :=
    dict_get_or str_eqb functional_key_name_aliases (upper key_name) key_name in
  let is_functional_key :=
    dict_mem str_eqb get_name_to_functional_number_map (upper key_name) in
  let key_name :=
    if is_functional_key then upper key_name
    else dict_get_or str_eqb character_key_name_aliases (upper key_name) key_name in
  let mod_val :=
    if (1 <? Z.of_nat (List.length parts)) then
      let mods :=
        map (fun x => dict_get_or str_eqb config_mod_map (upper x) (Z.shiftl SUPER 8))
            (removelast parts) in
      fold_left Z.lor mods 0
    else 0 in
  ParsedShortcut.mk mod_val key_name.

(** [KeyEvent.matches]; [spec] is a string or a parsed shortcut. *)
Definition matches (self : KeyEvent) (spec : str + ParsedShortcut.t) (types : Z)
  : bool :=
  if negb (truthy (Z.land (EventType.value (type self)) types)) then false
  else
    let is_shifted := truthy_str (shifted_key self) && shift self in
    let q := if is_shifted then Z.land (mods self) (Z.lnot SHIFT) else mods self in
    let kq := if is_shifted then shifted_key self else key self in
    let spec :=
      match spec with
      | inl s => parse_shortcut s
      | inr p => p
      end in
    if negb (q =? ParsedShortcut.mods spec) then false
    else str_eqb kq (ParsedShortcut.key_name spec).

(** The default of the [types] argument of [matches]. *)
Definition default_types : Z := Z.lor PRESS REPEAT.

Definition as_num (key : str) : result Z :=
  if truthy_str key then
    match dict_get str_eqb get_name_to_functional_number_map key with
    | Some n => if truthy n then Return n else ord key
    | None => ord key
    end
  else Return 0.

Definition as_window_system_event (self : KeyEvent)
  : result WindowSystemKeyEvent.t :=
  let action :=
    match type self with
    | EventType.REPEAT => GLFW_REPEAT
    | EventType.RELEASE => GLFW_RELEASE
    | EventType.PRESS => GLFW_PRESS
    end in
  let mods_ :=
    if truthy (mods self) then
      let m := 0 in
      let m := if shift self then Z.lor m GLFW_MOD_SHIFT else m in
      let m := if alt self then Z.lor m GLFW_MOD_ALT else m in
      let m := if ctrl self then Z.lor m GLFW_MOD_CONTROL else m in
      let m := if super self then Z.lor m GLFW_MOD_SUPER else m in
      m
    else 0 in
  k <- as_num (key self) ;;
  sk <- as_num (shifted_key self) ;;
  ak <- as_num (alternate_key self) ;;
  Return (WindowSystemKeyEvent.mk k sk ak mods_ action (text self)).

Definition get_sub_sections (x : str) (missing : Z) : result (list Z) :=
  mapM (fun y => if truthy_str y then int y else Return missing) (split 58 x).

(** The local function [key_name] of [decode_key_event]; it closes over the
    trailer [csi_type]. *)
Definition key_name (csi_type : str) (num : Z) : result str :=
  if negb (truthy num) then Return []
  else if negb (num =? 13) then
    let num := dict_get_or Z.eqb csi_number_to_functional_number_map num num in
    match dict_get Z.eqb functional_key_number_to_name_map num with
    | Some ans => Return ans
    | None => chr num
    end
  else Return (if str_eqb csi_type (lit "u") then lit "ENTER" else lit "F3").

(** The key number the decoder resolves: the first integer of the first
    section, or the number of the letter trailer. *)
Definition effective_keynum (first_section : list Z) (csi_type : str)
  : result Z :=
  keynum <- getitem first_section 0 ;;
  if contains (lit "ABCDHFPQRS") csi_type
  then dict_item str_eqb letter_trailer_to_csi_number_map csi_type
  else Return keynum.

Definition action_type (action : Z) : result EventType.t :=
  dict_item Z.eqb
    [ (1, EventType.PRESS); (2, EventType.REPEAT); (3, EventType.RELEASE) ]
    action.

Definition decode_key_event (csi csi_type : str) : result KeyEvent :=
  let parts := split 59 csi in
  p0 <- getitem parts 0 ;;
  first_section <- get_sub_sections p0 0 ;;
  second_section <-
    (if 1 <? Z.of_nat (List.length parts)
     then p1 <- getitem parts 1 ;; get_sub_sections p1 1
     else Return []) ;;
  third_section <-
    (if 2 <? Z.of_nat (List.length parts)
     then p2 <- getitem parts 2 ;; get_sub_sections p2 0
     else Return []) ;;
  mods <-
    (match second_section with
     | [] => Return 0
     | _ :: _ => n <- getitem second_section 0 ;; Return (n - 1)
     end) ;;
  action <-
    (if 1 <? Z.of_nat (List.length second_section)
     then getitem second_section 1
     else Return 1) ;;
  keynum <- effective_keynum first_section csi_type ;;
  key <- key_name csi_type keynum ;;
  n1 <- (if 1 <? Z.of_nat (List.length first_section)
         then getitem first_section 1 else Return 0) ;;
  shifted_key <- key_name csi_type n1 ;;
  n2 <- (if 2 <? Z.of_nat (List.length first_section)
         then getitem first_section 2 else Return 0) ;;
  alternate_key <- key_name csi_type n2 ;;
  type <- action_type action ;;
  chars <- mapM chr third_section ;;
  Return
    (mkKeyEvent type mods key (List.concat chars) shifted_key alternate_key
       (truthy (Z.land mods SHIFT)) (truthy (Z.land mods ALT))
       (truthy (Z.land mods CTRL)) (truthy (Z.land mods SUPER))).

Definition csi_number_for_name (key_name : str) : result Z :=
  if negb (truthy_str key_name) then Return 0
  else
    match dict_get str_eqb get_name_to_functional_number_map key_name with
    | None => ord key_name
    | Some fn => Return (dict_get_or Z.eqb get_functional_to_csi_number_map fn fn)
    end.

Definition encode_key_event (key_event : KeyEvent) : result str :=
  let name := key key_event in
  key <- csi_number_for_name name ;;
  shifted_key <- csi_number_for_name (shifted_key key_event) ;;
  alternate_key <- csi_number_for_name (alternate_key key_event) ;;
  let lt := get_csi_number_to_letter_trailer_map in
  let trailer :=
    if str_eqb name (lit "ENTER") then lit "u"
    else dict_get_or Z.eqb lt key (lit "u") in
  let key := if negb (str_eqb trailer (lit "u")) then 1 else key in
  let mods := mods key_event in
  let text := text key_event in
  let ans := CSI in
  let ans :=
    if negb (key =? 1) || truthy mods || truthy shifted_key
       || truthy alternate_key || truthy_str text
    then ans ++ str_of_int key else ans in
  let ans :=
    if truthy shifted_key || truthy alternate_key then
      let ans := ans ++ lit ":" ++ (if truthy shifted_key then str_of_int shifted_key else []) in
      if truthy alternate_key then ans ++ lit ":" ++ str_of_int alternate_key else ans
    else ans in
  let action :=
    match type key_event with
    | EventType.REPEAT => 2
    | EventType.RELEASE => 3
    | EventType.PRESS => 1
    end in
  let ans :=
    if truthy mods || (1 <? action) || truthy_str text then
      let m := 0 in
      let m := if shift key_event then Z.lor m 1 else m in
      let m := if alt key_event then Z.lor m 2 else m in
      let m := if ctrl key_event then Z.lor m 4 else m in
      let m := if super key_event then Z.lor m 8 else m in
      if (1 <? action) || truthy m then
        let ans := ans ++ lit ";" ++ str_of_int (m + 1) in
        if 1 <? action then ans ++ lit ":" ++ str_of_int action else ans
      else if truthy_str text then ans ++ lit ";"
      else ans
    else ans in
  let ans :=
    if truthy_str text
    then ans ++ lit ";" ++ join (lit ":") (map str_of_int text)
    else ans in
  let fn := dict_get str_eqb get_name_to_functional_number_map name in
  let trailer :=
    match fn with
    | Some fn => if in_tilde_trailers fn then lit "~" else trailer
    | None => trailer
    end in
  Return (ans ++ trailer).

Definition decode_key_event_as_window_system_key (text : str)
  : result (option WindowSystemKeyEvent.t) :=
  let csi := slice_2_m1 text in
  trailer <- getitem_last text ;;
  k <- try_except
         (k <- decode_key_event csi trailer ;; Return (Some k))
         (Return None) ;;
  match k with
  | None => Return None
  | Some k => w <- as_window_system_event k ;; Return (Some w)
  end.

(** The spec's [decode(encode(e))]: the encoder's output is cut into payload
    and trailer the way the bridge does it, and decoded. *)
Definition decode_encoded (e : KeyEvent) : result KeyEvent :=
  s <- encode_key_event e ;;
  trailer <- getitem_last s ;;
  decode_key_event (slice_2_m1 s) trailer.

(** The key number [decode_key_event] resolves for a payload and a trailer. *)
Definition decoded_keynum (csi csi_type : str) : result Z :=
  p0 <- getitem (split 59 csi) 0 ;;
  first_section <- get_sub_sections p0 0 ;;
  effective_keynum first_section csi_type.

(** A key name of the data model: empty, a functional name, or one character. *)
Definition is_key_name (s : str) : bool :=
  negb (truthy_str s)
  || dict_mem str_eqb get_name_to_functional_number_map s
  || (Z.of_nat (List.length s) =? 1).

(** A spec with a modifier token outside [config_mod_map]. *)
Definition has_unknown_modifier (spec : str) : bool :=
  let spec :=
    if endswith spec (lit "+") then removelast spec ++ lit "plus" else spec in
  existsb (fun x => negb (dict_mem str_eqb config_mod_map (upper x)))
          (removelast (split 43 spec)).

(** *** The wire form of an event, for the round trip *)

(** What [decode_key_event] does once the three sections are parsed. *)
Definition build_event (first_section second_section third_section : list Z)
  (csi_type : str) : result KeyEvent :=
  mods <-
    (match second_section with
     | [] => Return 0
     | _ :: _ => n <- getitem second_section 0 ;; Return (n - 1)
     end) ;;
  action <-
    (if 1 <? Z.of_nat (List.length second_section)
     then getitem second_section 1
     else Return 1) ;;
  keynum <- effective_keynum first_section csi_type ;;
  key <- key_name csi_type keynum ;;
  n1 <- (if 1 <? Z.of_nat (List.length first_section)
         then getitem first_section 1 else Return 0) ;;
  shifted_key <- key_name csi_type n1 ;;
  n2 <- (if 2 <? Z.of_nat (List.length first_section)
         then getitem first_section 2 else Return 0) ;;
  alternate_key <- key_name csi_type n2 ;;
  type <- action_type action ;;
  chars <- mapM chr third_section ;;
  Return
    (mkKeyEvent type mods key (List.concat chars) shifted_key alternate_key
       (truthy (Z.land mods SHIFT)) (truthy (Z.land mods ALT))
       (truthy (Z.land mods CTRL)) (truthy (Z.land mods SUPER))).

(** A subfield is a number or is left empty; a section is a list of
    subfields joined by colons; a payload is sections joined by semicolons. *)
Definition field (o : option Z) : str :=
  match o with
  | Some n => str_of_int n
  | None => []
  end.

Definition section_text (l : list (option Z)) : str :=
  join (lit ":") (map field l).

Definition payload_text (sections : list (list (option Z))) : str :=
  join (lit ";") (map section_text sections).

(** The integers a section stands for. *)
Definition values (missing : Z) (l : list (option Z)) : list Z :=
  map (fun o => match o with Some n => n | None => missing end) l.

Definition wf_field (o : option Z) : Prop :=
  match o with
  | Some n => 0 <= n < 2 ^ 640
  | None => True
  end.

Definition wf_section (l : list (option Z)) : Prop :=
  l <> [] /\ Forall wf_field l.

(** The encoder's choices for a key of name [name] and number [k]: the
    trailer before and after the tilde rule, and the first integer. *)
Definition encoder_trailer0 (name : str) (k : Z) : str :=
  if str_eqb name (lit "ENTER") then lit "u"
  else dict_get_or Z.eqb get_csi_number_to_letter_trailer_map k (lit "u").

Definition encoder_keynum (name : str) (k : Z) : Z :=
  if negb (str_eqb (encoder_trailer0 name k) (lit "u")) then 1 else k.

Definition encoder_trailer (name : str) (k : Z) : str :=
  match dict_get str_eqb get_name_to_functional_number_map name with
  | Some fn => if in_tilde_trailers fn then lit "~" else encoder_trailer0 name k
  | None => encoder_trailer0 name k
  end.

(** The modifier mask the encoder writes, from the four booleans. *)
Definition wire_mods (e : KeyEvent) : Z :=
  let m := 0 in
  let m := if shift e then Z.lor m 1 else m in
  let m := if alt e then Z.lor m 2 else m in
  let m := if ctrl e then Z.lor m 4 else m in
  let m := if super e then Z.lor m 8 else m in
  m.

Definition wire_action (e : KeyEvent) : Z :=
  match type e with
  | EventType.REPEAT => 2
  | EventType.RELEASE => 3
  | EventType.PRESS => 1
  end.

(** The sections the encoder writes for an event whose key, shifted key and
    alternate key have the numbers [k], [sk] and [ak]: the first one, then the
    second and the third when they are written. *)
Definition wire_first (k sk ak : Z) (e : KeyEvent) : list (option Z) :=
  (if negb (k =? 1) || truthy (mods e) || truthy sk || truthy ak
      || truthy_str (text e)
   then Some k else None)
  :: (if truthy sk || truthy ak
      then (if truthy sk then Some sk else None)
           :: (if truthy ak then [Some ak] else [])
      else []).

Definition wire_second (e : KeyEvent) : list (list (option Z)) :=
  if truthy (mods e) || (1 <? wire_action e) || truthy_str (text e) then
    if (1 <? wire_action e) || truthy (wire_mods e)
    then [Some (wire_mods e + 1)
          :: (if 1 <? wire_action e then [Some (wire_action e)] else [])]
    else if truthy_str (text e) then [[None]] else []
  else [].

Definition wire_third (e : KeyEvent) : list (list (option Z)) :=
  if truthy_str (text e) then [map Some (text e)] else [].

Definition wire_sections (k sk ak : Z) (e : KeyEvent) : list (list (option Z)) :=
  wire_first k sk ak e :: wire_second e ++ wire_third e.

(** The trailer of the encoder's output. *)
Definition encoded_trailer (e : KeyEvent) : result str :=
  s <- encode_key_event e ;;
  getitem_last s.

(** The key the decoder resolves from a trailer and the first integer. *)
Definition rekey (csi_type : str) (first0 : Z) : result str :=
  keynum <- effective_keynum [first0] csi_type ;;
  key_name csi_type keynum.

Definition result_str_eqb (a b : result str) : bool :=
  match a, b with
  | Return x, Return y => str_eqb x y
  | _, _ => false
  end.

(** The round trip of one name of the functional table, as key and as
    shifted or alternate key. *)
Definition functional_name_round_trips (s : str) : bool :=
  match csi_number_for_name s with
  | Return k =>
      let k' := encoder_keynum s k in
      let t := encoder_trailer s k in
      (Z.of_nat (List.length t) =? 1)
      && result_str_eqb (rekey t k') (Return s)
      && (negb (k' =? 1) || result_str_eqb (rekey t 0) (Return s))
      && (0 <? k) && (k <=? 1114111)
      && Bool.eqb (k =? 13) (str_eqb s (lit "ENTER"))
      && ((k =? 13) || result_str_eqb (key_name [] k) (Return s))
  | Raise _ => false
  end.

(** *** Auxiliary notions of the proofs *)

(** The value of a run of decimal digits read after the value [acc]. *)
Definition digits_value (acc : Z) (s : str) : Z :=
  fold_left (fun a c => 10 * a + (c - 48)) s acc.

(** The text built so far starts with [ESC] and the bracket. *)
Definition csi_prefixed (ans : str) : Prop := exists payload, ans = CSI ++ payload.

(** The computation returns. *)
Definition returns {A : Type} (r : result A) : bool :=
  match r with
  | Return _ => true
  | Raise _ => false
  end.

(** A name the decoder can produce: empty, a name of the functional table,
    or the character of a number that is in neither table. *)
Inductive decoded_name : str -> Prop :=
| decoded_empty : decoded_name []
| decoded_functional (fn : Z) (s : str) :
    In (fn, s) functional_key_number_to_name_map -> decoded_name s
| decoded_char (n : Z) :
    0 <= n <= 1114111 ->
    truthy n = true ->
    dict_get Z.eqb csi_number_to_functional_number_map n = None ->
    dict_get Z.eqb functional_key_number_to_name_map n = None ->
    decoded_name [n].

(** What the round trip needs of a name in the role of the key: its number
    [k], the one-character trailer [c] of the encoder, and that the decoder
    finds the name again from the first integer the encoder writes (or, for a
    letter trailer, from nothing). *)
Definition key_round_trip (s : str) (k c : Z) : Prop :=
  csi_number_for_name s = Return k
  /\ 0 <= k <= 1114111
  /\ encoder_trailer s k = [c]
  /\ rekey [c] (encoder_keynum s k) = Return s
  /\ (encoder_keynum s k = 1 -> s = [1] \/ rekey [c] 0 = Return s).

(** What it needs of a shifted or alternate key. *)
Definition side_round_trip (s : str) (k : Z) : Prop :=
  csi_number_for_name s = Return k
  /\ 0 <= k <= 1114111
  /\ truthy k = truthy_str s
  /\ (k = 13 -> s = lit "ENTER")
  /\ (k <> 13 -> forall t, key_name t k = Return s).

(** *** Notions of the further properties *)

(** Equality of optional numbers and names. *)
Definition opt_Z_eqb (a b : option Z) : bool :=
  match a, b with
  | Some x, Some y => x =? y
  | None, None => true
  | _, _ => false
  end.

Definition opt_str_eqb (a b : option str) : bool :=
  match a, b with
  | Some x, Some y => str_eqb x y
  | None, None => true
  | _, _ => false
  end.

(** Equality of results that are numbers. *)
Definition result_Z_eqb (a b : result Z) : bool :=
  match a, b with
  | Return x, Return y => x =? y
  | _, _ => false
  end.

(** A well-formed Python string: code points of [range(0x110000)]. *)
Definition wf_str (s : str) : Prop := Forall (fun c => 0 <= c <= 1114111) s.

(** The trailers the encoder can write. *)
Definition encoder_trailers : str := lit "u~ABCDFHPQRS".

(** The key each letter trailer stands for. *)
Definition letter_trailer_keys : dict str str :=
  [ (lit "A", lit "UP"); (lit "B", lit "DOWN"); (lit "C", lit "RIGHT");
    (lit "D", lit "LEFT"); (lit "F", lit "END"); (lit "H", lit "HOME");
    (lit "P", lit "F1"); (lit "Q", lit "F2"); (lit "R", lit "F3");
    (lit "S", lit "F4") ].

(** The functional number (or code point) a wire number stands for. *)
Definition functional_number (csi_type : str) (num : Z) : Z :=
  if num =? 0 then 0
  else if num =? 13 then (if str_eqb csi_type (lit "u") then 57345 else 57366)
  else dict_get_or Z.eqb csi_number_to_functional_number_map num num.

(** The spec written from modifier tokens and a key token. *)
Definition spec_of (tokens : list str) (key_token : str) : str :=
  join (lit "+") (tokens ++ [key_token]).

(** ** Facts about the runtime *)

Lemma str_eqb_refl (s : str) : str_eqb s s = true.
Proof.
  induction s as [ | c s IH ]; cbn; [ reflexivity | ].
  now rewrite Z.eqb_refl, IH.
Qed.

Lemma str_eqb_eq (a b : str) : str_eqb a b = true <-> a = b.
Proof.
  split.
  - revert b; induction a as [ | x a IH ]; intros [ | y b ]; cbn;
      try discriminate; [ reflexivity | ].
    intros H. apply andb_true_iff in H as [Hx Hr].
    apply Z.eqb_eq in Hx. f_equal; [ exact Hx | now apply IH ].
  - intros ->. apply str_eqb_refl.
Qed.

Lemma str_eqb_neq (a b : str) : str_eqb a b = false <-> a <> b.
Proof.
  rewrite <- str_eqb_eq. destruct (str_eqb a b); split; congruence.
Qed.

Lemma dict_get_In {K V : Type} (eqb : K -> K -> bool) (d : dict K V) k v :
  (forall a b, eqb a b = true -> a = b) ->
  dict_get eqb d k = Some v -> In (k, v) d.
Proof.
  intros Heq. induction d as [ | [k' v'] d IH ]; cbn; [ discriminate | ].
  destruct (eqb k' k) eqn:E.
  - intros [= ->]. left. now rewrite (Heq _ _ E).
  - intros H. right. now apply IH.
Qed.

Lemma Zeqb_true (a b : Z) : (a =? b) = true -> a = b.
Proof. apply Z.eqb_eq. Qed.

Lemma str_eqb_true (a b : str) : str_eqb a b = true -> a = b.
Proof. apply str_eqb_eq. Qed.

(** *** Decimal text of an integer *)

Lemma int_digits_all_digits (s : str) :
  Forall (fun c => is_digit c = true) s ->
  forall acc b,
    int_digits acc b s
    = match s with
      | [] => if b then Some acc else None
      | _ :: _ => Some (digits_value acc s)
      end.
Proof.
  induction 1 as [ | c s Hc Hs IH ]; intros acc b; [ reflexivity | ].
  cbn [int_digits]. rewrite Hc, IH.
  destruct s; reflexivity.
Qed.

Lemma digits_of_spec (f : nat) (n : Z) :
  0 <= n < 2 ^ Z.of_nat (S f) ->
  Forall (fun c => is_digit c = true) (digits_of (S f) n)
  /\ digits_of (S f) n <> []
  /\ digits_value 0 (digits_of (S f) n) = n.
Proof.
  revert n. induction f as [ | f IH ]; intros n Hn.
  - change (2 ^ Z.of_nat 1) with 2 in Hn.
    cbn [digits_of]. destruct (n <? 10) eqn:E; [ | apply Z.ltb_ge in E; lia ].
    repeat split.
    + constructor; [ | constructor ]. unfold is_digit.
      apply andb_true_iff; split; apply Z.leb_le; lia.
    + discriminate.
    + unfold digits_value; cbn [fold_left]. lia.
  - remember (S f) as f' eqn:Ef'.
    cbn [digits_of]. destruct (n <? 10) eqn:E.
    + apply Z.ltb_lt in E. repeat split.
      * constructor; [ | constructor ]. unfold is_digit.
        apply andb_true_iff; split; apply Z.leb_le; lia.
      * discriminate.
      * unfold digits_value; cbn [fold_left]. lia.
    + apply Z.ltb_ge in E.
      assert (Hq : 0 <= n / 10 < 2 ^ Z.of_nat f').
      { split; [ apply Z.div_pos; lia | ].
        apply Z.div_lt_upper_bound; [ lia | ].
        rewrite (Nat2Z.inj_succ f'), Z.pow_succ_r in Hn by lia. lia. }
      subst f'. destruct (IH _ Hq) as (Hd & Hne & Hv).
      pose proof (Z.mod_pos_bound n 10 ltac:(lia)) as Hmod.
      repeat split.
      * apply Forall_app; split; [ exact Hd | ].
        constructor; [ | constructor ]. unfold is_digit.
        apply andb_true_iff; split; apply Z.leb_le; lia.
      * intros Habs. apply app_eq_nil in Habs as [_ Habs]. discriminate.
      * unfold digits_value in *. rewrite fold_left_app. cbn [fold_left].
        rewrite Hv. pose proof (Z.div_mod n 10 ltac:(lia)). lia.
Qed.

Lemma digits_of_length (f : nat) (n : Z) :
  (List.length (digits_of f n) <= f)%nat.
Proof.
  revert n. induction f as [ | f IH ]; intros n; cbn [digits_of];
    [ cbn [List.length]; lia | ].
  destruct (n <? 10); cbn [List.length]; [ lia | ].
  rewrite length_app. cbn [List.length]. specialize (IH (n / 10)). lia.
Qed.

(** The decimal text of a natural number below [2 ^ 640] has at most 640
    digits. *)
Lemma str_of_int_length (n : Z) :
  0 <= n < 2 ^ 640 -> Z.of_nat (List.length (str_of_int n)) <= 640.
Proof.
  intros Hn. unfold str_of_int.
  destruct (n <? 0) eqn:E; [ apply Z.ltb_lt in E; lia | ].
  pose proof (digits_of_length (S (Z.to_nat (Z.log2 n))) n) as Hl.
  assert (Hlog : Z.log2 n < 640).
  { destruct (Z.eq_dec n 0) as [ -> | Hz ]; [ reflexivity | ].
    apply Z.log2_lt_pow2; lia. }
  pose proof (Z.log2_nonneg n). lia.
Qed.

Lemma filter_digits (s : str) :
  Forall (fun c => is_digit c = true) s -> filter is_digit s = s.
Proof.
  induction 1 as [ | c s Hc Hs IH ]; [ reflexivity | ].
  cbn [filter]. now rewrite Hc, IH.
Qed.

Lemma str_of_int_spec (n : Z) :
  0 <= n ->
  Forall (fun c => is_digit c = true) (str_of_int n)
  /\ str_of_int n <> []
  /\ digits_value 0 (str_of_int n) = n.
Proof.
  intros Hn. unfold str_of_int.
  destruct (n <? 0) eqn:E; [ apply Z.ltb_lt in E; lia | ].
  apply digits_of_spec. split; [ exact Hn | ].
  rewrite Nat2Z.inj_succ, Z2Nat.id by apply Z.log2_nonneg.
  destruct (Z.eq_dec n 0) as [ -> | Hz ]; [ reflexivity | ].
  apply Z.log2_spec. lia.
Qed.

Lemma digit_not_space (c : Z) : is_digit c = true -> is_space c = false.
Proof.
  unfold is_digit, is_space. intros H.
  apply andb_true_iff in H as [H1 H2]. apply Z.leb_le in H1, H2.
  apply orb_false_iff; split; [ apply Z.eqb_neq; lia | ].
  apply andb_false_iff. right. apply Z.leb_gt. lia.
Qed.

Lemma digit_range (c : Z) : is_digit c = true -> 48 <= c <= 57.
Proof.
  unfold is_digit. intros H.
  apply andb_true_iff in H as [H1 H2]. apply Z.leb_le in H1, H2. lia.
Qed.

Lemma digits_not_in (sep : Z) (s : str) :
  Forall (fun c => is_digit c = true) s -> ~ (48 <= sep <= 57) -> ~ In sep s.
Proof.
  intros Hs Hsep Hin. rewrite Forall_forall in Hs.
  apply Hs, digit_range in Hin. contradiction.
Qed.

Lemma lstrip_digits (s : str) :
  Forall (fun c => is_digit c = true) s -> lstrip s = s.
Proof.
  intros [ | c r Hc _ ]; [ reflexivity | ].
  cbn [lstrip]. now rewrite (digit_not_space _ Hc).
Qed.

Lemma strip_digits (s : str) :
  Forall (fun c => is_digit c = true) s -> strip s = s.
Proof.
  intros Hs. unfold strip. rewrite (lstrip_digits _ Hs).
  rewrite lstrip_digits by now apply Forall_rev.
  apply rev_involutive.
Qed.

Lemma is_ascii_digits (s : str) :
  Forall (fun c => is_digit c = true) s -> is_ascii s = true.
Proof.
  intros Hs. unfold is_ascii. apply forallb_forall. intros c Hc.
  rewrite Forall_forall in Hs. apply Hs, digit_range in Hc.
  apply Z.ltb_lt. lia.
Qed.

(** [int] reads a non-empty run of digits as its decimal value. *)
Lemma int_digits_text (s : str) :
  Forall (fun c => is_digit c = true) s -> s <> [] ->
  Z.of_nat (List.length s) <= 640 ->
  int s = Return (digits_value 0 s).
Proof.
  intros Hs Hne Hlen. unfold Py.int.
  rewrite (is_ascii_digits _ Hs), (strip_digits _ Hs).
  destruct s as [ | c r ]; [ contradiction | ].
  pose proof (digit_range c (Forall_inv Hs)) as Hc.
  destruct (c =? 43) eqn:E1; [ apply Z.eqb_eq in E1; lia | ].
  destruct (c =? 45) eqn:E2; [ apply Z.eqb_eq in E2; lia | ].
  rewrite (int_digits_all_digits _ Hs), (filter_digits _ Hs).
  unfold too_many_digits.
  replace (640 <? Z.of_nat (List.length (c :: r))) with false
    by (symmetry; apply Z.ltb_ge; exact Hlen).
  cbn [andb]. f_equal. lia.
Qed.

(** [int(str(n)) == n] for a natural number below [2 ^ 640]. *)
Lemma int_str_of_int (n : Z) :
  0 <= n < 2 ^ 640 -> int (str_of_int n) = Return n.
Proof.
  intros Hn. destruct (str_of_int_spec n (proj1 Hn)) as (Hd & Hne & Hv).
  rewrite (int_digits_text _ Hd Hne (str_of_int_length n Hn)). now rewrite Hv.
Qed.

Lemma code_point_short (n : Z) : n <= 1114111 -> n < 2 ^ 640.
Proof.
  intros H. apply (Z.le_lt_trans _ 1114111); [ exact H | ].
  apply (Z.lt_le_trans _ (2 ^ 21)); [ reflexivity | ].
  apply Z.pow_le_mono_r; lia.
Qed.

(** *** Splitting and joining *)

Lemma split_not_nil (sep : Z) (s : str) : split sep s <> [].
Proof.
  destruct s as [ | c r ]; cbn [split]; [ discriminate | ].
  destruct (c =? sep); [ discriminate | ].
  destruct (split sep r); discriminate.
Qed.

Lemma split_not_in (sep : Z) (s : str) : ~ In sep s -> split sep s = [s].
Proof.
  induction s as [ | c r IH ]; intros Hn; [ reflexivity | ].
  cbn [split]. destruct (c =? sep) eqn:E.
  - apply Z.eqb_eq in E. exfalso. apply Hn. now left.
  - rewrite IH; [ reflexivity | ]. intros Hin. apply Hn. now right.
Qed.

Lemma split_app_sep (sep : Z) (a b : str) :
  ~ In sep a -> split sep (a ++ sep :: b) = a :: split sep b.
Proof.
  induction a as [ | c r IH ]; intros Hn.
  - cbn [app split]. now rewrite Z.eqb_refl.
  - cbn [app split]. destruct (c =? sep) eqn:E.
    + apply Z.eqb_eq in E. exfalso. apply Hn. now left.
    + rewrite IH; [ reflexivity | ]. intros Hin. apply Hn. now right.
Qed.

(** Splitting what was joined gives the pieces back. *)
Lemma split_join (sep : Z) (l : list str) :
  l <> [] -> Forall (fun x => ~ In sep x) l ->
  split sep (join [sep] l) = l.
Proof.
  induction l as [ | x r IH ]; intros Hne Hl; [ contradiction | ].
  apply Forall_cons_iff in Hl as [Hx Hr].
  destruct r as [ | y r ].
  - cbn [join]. now apply split_not_in.
  - change (join [sep] (x :: y :: r)) with (x ++ sep :: join [sep] (y :: r)).
    rewrite split_app_sep by exact Hx.
    rewrite IH; [ reflexivity | discriminate | exact Hr ].
Qed.

(** *** The two cuts of the bridge *)

Lemma slice_2_m1_framed (payload : str) (c : Z) :
  slice_2_m1 (CSI ++ payload ++ [c]) = payload.
Proof.
  unfold slice_2_m1, CSI. cbn [app skipn]. apply removelast_last.
Qed.

Lemma getitem_last_framed (payload : str) (c : Z) :
  getitem_last (CSI ++ payload ++ [c]) = Return [c].
Proof.
  unfold getitem_last, CSI. cbn [app].
  change (91 :: payload ++ [c]) with ((91 :: payload) ++ [c]).
  now rewrite last_last.
Qed.

(** *** Bits *)

Lemma fold_left_lor_testbit (l : list Z) (a i : Z) :
  Z.testbit (fold_left Z.lor l a) i
  = Z.testbit a i || existsb (fun x => Z.testbit x i) l.
Proof.
  revert a. induction l as [ | x l IH ]; intros a; cbn [fold_left existsb].
  - now rewrite orb_false_r.
  - rewrite IH, Z.lor_spec. now rewrite orb_assoc.
Qed.

(** ** Scenarios of the encoder and the decoder *)

(** C2 (as amended): encoding [KeyEvent(key="F1")] gives [ESC [ P]: the letter
    trailer [P] is selected and, the event having no mods, text, shifted or
    alternate key, the forced first integer 1 is left out; with a modifier the
    forced 1 is written, as in [ESC [ 1 ; 2 P] for shift+F1. *)
Theorem encode_F1_letter_trailer :
  encode_key_event
    (mkKeyEvent EventType.PRESS 0 (lit "F1") [] [] [] false false false false)
  = Return (CSI ++ lit "P")
  /\ encode_key_event
       (mkKeyEvent EventType.PRESS SHIFT (lit "F1") [] [] [] true false false false)
     = Return (CSI ++ lit "1;2P").
Proof. split; vm_compute; reflexivity. Qed.

(** C3 (as amended): decoding the payload [97;;:65] with trailer [u] gives the
    key [a] with text of two characters, U+0000 then [A]: the empty subfield
    before the colon counts as the integer 0.  The payload [97;;65] is the one
    whose text is exactly [A]. *)
Theorem decode_text_section :
  decode_key_event (lit "97;;:65") (lit "u")
  = Return (mkKeyEvent EventType.PRESS 0 (lit "a") [0; 65] [] []
              false false false false)
  /\ decode_key_event (lit "97;;65") (lit "u")
     = Return (mkKeyEvent EventType.PRESS 0 (lit "a") (lit "A") [] []
                 false false false false).
Proof. split; vm_compute; reflexivity. Qed.

(** What a successful run of the decoder went through. *)
Lemma decode_key_event_inv (csi csi_type : str) (e : KeyEvent) :
  decode_key_event csi csi_type = Return e ->
  exists p0 first second third keynum chars,
    getitem (split 59 csi) 0 = Return p0
    /\ get_sub_sections p0 0 = Return first
    /\ (if 1 <? Z.of_nat (List.length (split 59 csi))
        then p1 <- getitem (split 59 csi) 1 ;; get_sub_sections p1 1
        else Return []) = Return second
    /\ (if 2 <? Z.of_nat (List.length (split 59 csi))
        then p2 <- getitem (split 59 csi) 2 ;; get_sub_sections p2 0
        else Return []) = Return third
    /\ effective_keynum first csi_type = Return keynum
    /\ key_name csi_type keynum = Return (key e)
    /\ key_name csi_type (match first with _ :: x :: _ => x | _ => 0 end)
       = Return (shifted_key e)
    /\ key_name csi_type (match first with _ :: _ :: x :: _ => x | _ => 0 end)
       = Return (alternate_key e)
    /\ mods e = match second with [] => 0 | n :: _ => n - 1 end
    /\ action_type (match second with _ :: a :: _ => a | _ => 1 end)
       = Return (type e)
    /\ mapM chr third = Return chars
    /\ text e = List.concat chars
    /\ shift e = truthy (Z.land (mods e) SHIFT)
    /\ alt e = truthy (Z.land (mods e) ALT)
    /\ ctrl e = truthy (Z.land (mods e) CTRL)
    /\ super e = truthy (Z.land (mods e) SUPER).
Proof.
  unfold decode_key_event. intros H.
  destruct (getitem (split 59 csi) 0) as [ p0 | ] eqn:E0;
    cbn [Py.bind] in H; [ | discriminate ].
  destruct (get_sub_sections p0 0) as [ first | ] eqn:E1;
    cbn [Py.bind] in H; [ | discriminate ].
  match type of H with Py.bind ?mm _ = _ =>
    destruct mm as [ second | ] eqn:E2; cbn [Py.bind] in H; [ | discriminate ] end.
  match type of H with Py.bind ?mm _ = _ =>
    destruct mm as [ third | ] eqn:E3; cbn [Py.bind] in H; [ | discriminate ] end.
  match type of H with Py.bind ?mm _ = _ =>
    destruct mm as [ m | ] eqn:Em; cbn [Py.bind] in H; [ | discriminate ] end.
  match type of H with Py.bind ?mm _ = _ =>
    destruct mm as [ action | ] eqn:Ea; cbn [Py.bind] in H; [ | discriminate ] end.
  destruct (effective_keynum first csi_type) as [ keynum | ] eqn:Ek;
    cbn [Py.bind] in H; [ | discriminate ].
  destruct (key_name csi_type keynum) as [ k | ] eqn:Ekn;
    cbn [Py.bind] in H; [ | discriminate ].
  match type of H with Py.bind ?mm _ = _ =>
    destruct mm as [ n1 | ] eqn:En1; cbn [Py.bind] in H; [ | discriminate ] end.
  destruct (key_name csi_type n1) as [ sk | ] eqn:Esk;
    cbn [Py.bind] in H; [ | discriminate ].
  match type of H with Py.bind ?mm _ = _ =>
    destruct mm as [ n2 | ] eqn:En2; cbn [Py.bind] in H; [ | discriminate ] end.
  destruct (key_name csi_type n2) as [ ak | ] eqn:Eak;
    cbn [Py.bind] in H; [ | discriminate ].
  destruct (action_type action) as [ ty | ] eqn:Ety;
    cbn [Py.bind] in H; [ | discriminate ].
  destruct (mapM chr third) as [ chars | ] eqn:Ech;
    cbn [Py.bind] in H; [ | discriminate ].
  injection H as <-. cbn [key shifted_key alternate_key mods type text
                            shift alt ctrl super].
  assert (Hm : m = match second with [] => 0 | n :: _ => n - 1 end).
  { destruct second as [ | n r ]; cbn [getitem nth_error Py.bind] in Em;
      now injection Em. }
  assert (Hact : action = match second with _ :: a :: _ => a | _ => 1 end).
  { clear - Ea. destruct (1 <? Z.of_nat (List.length second)) eqn:L;
      [ apply Z.ltb_lt in L | apply Z.ltb_ge in L ];
      destruct second as [ | n [ | a r ] ]; cbn [List.length] in L; try lia;
      cbn [getitem nth_error] in Ea; now injection Ea. }
  assert (Hn1 : n1 = match first with _ :: x :: _ => x | _ => 0 end).
  { clear - En1. destruct (1 <? Z.of_nat (List.length first)) eqn:L;
      [ apply Z.ltb_lt in L | apply Z.ltb_ge in L ];
      destruct first as [ | a [ | b r ] ]; cbn [List.length] in L; try lia;
      cbn [getitem nth_error] in En1; now injection En1. }
  assert (Hn2 : n2 = match first with _ :: _ :: x :: _ => x | _ => 0 end).
  { clear - En2. destruct (2 <? Z.of_nat (List.length first)) eqn:L;
      [ apply Z.ltb_lt in L | apply Z.ltb_ge in L ];
      destruct first as [ | a [ | b [ | c r ] ] ]; cbn [List.length] in L; try lia;
      cbn [getitem nth_error] in En2; now injection En2. }
  subst m action n1 n2.
  exists p0, first, second, third, keynum, chars.
  repeat (split; [ first [ assumption | reflexivity ] | ]). reflexivity.
Qed.

Lemma key_name_13 (csi_type : str) :
  key_name csi_type 13
  = Return (if str_eqb csi_type (lit "u") then lit "ENTER" else lit "F3").
Proof. reflexivity. Qed.

(** C4: when the key number the decoder resolves is 13, the decoded key is
    [ENTER] if the trailer is [u] and [F3] otherwise, so it is [ENTER] exactly
    when the trailer is [u]; the payload [13] is decoded so under every trailer
    that is not a letter trailer, [13 u] to [ENTER] and [13 ~] to [F3]. *)
Theorem csi_13_disambiguation :
  (forall csi csi_type e,
      decode_key_event csi csi_type = Return e ->
      decoded_keynum csi csi_type = Return 13 ->
      key e = (if str_eqb csi_type (lit "u") then lit "ENTER" else lit "F3")
      /\ (key e = lit "ENTER" <-> csi_type = lit "u"))
  /\ (forall csi_type,
         contains (lit "ABCDHFPQRS") csi_type = false ->
         decode_key_event (lit "13") csi_type
         = Return (mkKeyEvent EventType.PRESS 0
                     (if str_eqb csi_type (lit "u") then lit "ENTER" else lit "F3")
                     [] [] [] false false false false))
  /\ (exists e, decode_key_event (lit "13") (lit "u") = Return e
                /\ key e = lit "ENTER")
  /\ (exists e, decode_key_event (lit "13") (lit "~") = Return e
                /\ key e = lit "F3").
Proof.
  split; [ | split; [ | split; eexists; split; vm_compute; reflexivity ] ].
  - intros csi csi_type e Hd Hk.
    destruct (decode_key_event_inv _ _ _ Hd)
      as (p0 & first & second & third & keynum & chars
          & E0 & E1 & _ & _ & Ek & Ekn & _).
    unfold decoded_keynum in Hk. rewrite E0 in Hk. cbn [Py.bind] in Hk.
    rewrite E1 in Hk. cbn [Py.bind] in Hk.
    rewrite Hk in Ek. injection Ek as <-.
    rewrite key_name_13 in Ekn. injection Ekn as <-.
    split; [ reflexivity | ].
    destruct (str_eqb csi_type (lit "u")) eqn:Eu.
    + apply str_eqb_eq in Eu. split; [ intros _; exact Eu | reflexivity ].
    + apply str_eqb_neq in Eu. split; [ discriminate | intros H; contradiction ].
  - intros csi_type Hl. unfold decode_key_event.
    change (split 59 (lit "13")) with [lit "13"].
    cbn [getitem nth_error Py.bind].
    change (get_sub_sections (lit "13") 0) with (Return (A := list Z) [13]).
    cbn [Py.bind List.length Z.of_nat].
    unfold effective_keynum. cbn [getitem nth_error Py.bind].
    rewrite Hl. cbn [Py.bind]. rewrite key_name_13. cbn [Py.bind].
    reflexivity.
Qed.

(** ** The encoder's trailer *)

Lemma csi_number_for_name_total (s : str) :
  is_key_name s = true -> exists n, csi_number_for_name s = Return n.
Proof.
  unfold is_key_name, csi_number_for_name, dict_mem.
  destruct (truthy_str s) eqn:Et; cbn [negb orb]; [ | now eexists ].
  destruct (dict_get str_eqb get_name_to_functional_number_map s);
    cbn [orb]; [ now eexists | ].
  intros H. apply Z.eqb_eq in H.
  destruct s as [ | c [ | d r ] ]; cbn [List.length] in H; try lia.
  now eexists.
Qed.

Lemma csi_prefixed_CSI : csi_prefixed CSI.
Proof. exists []. reflexivity. Qed.

Lemma csi_prefixed_app (ans x : str) : csi_prefixed ans -> csi_prefixed (ans ++ x).
Proof. intros [p ->]. exists (p ++ x). now rewrite app_assoc. Qed.

(** C5: an event whose key has its functional number in [tilde_trailers] is
    encoded with trailer [~], whatever its mods, type, text, shifted key and
    alternate key (names of the data model) are; ctrl+INSERT gives
    [ESC [ 2 ; 5 ~]. *)
Theorem tilde_precedence :
  (forall e fn,
      dict_get str_eqb get_name_to_functional_number_map (key e) = Some fn ->
      in_tilde_trailers fn = true ->
      is_key_name (shifted_key e) = true ->
      is_key_name (alternate_key e) = true ->
      exists payload, encode_key_event e = Return (CSI ++ payload ++ lit "~"))
  /\ encode_key_event
       (mkKeyEvent EventType.PRESS CTRL (lit "INSERT") [] [] []
          false false true false)
     = Return (CSI ++ lit "2;5~").
Proof.
  split; [ | vm_compute; reflexivity ].
  intros e fn Hfn Ht Hs Ha.
  destruct (csi_number_for_name_total _ Hs) as [sk Esk].
  destruct (csi_number_for_name_total _ Ha) as [ak Eak].
  assert (Ek : exists k, csi_number_for_name (key e) = Return k).
  { apply csi_number_for_name_total. unfold is_key_name, dict_mem.
    rewrite Hfn. now rewrite orb_true_r. }
  destruct Ek as [k Ek].
  unfold encode_key_event. rewrite Ek, Esk, Eak. cbn [Py.bind].
  rewrite Hfn, Ht.
  match goal with
  | |- exists payload, Return (?a ++ _) = _ =>
      assert (Hp : csi_prefixed a)
  end.
  { repeat match goal with
           | |- context [if ?b then _ else _] => destruct b
           | |- context [match ?t with EventType.PRESS => _ | _ => _ end] =>
               destruct t
           end;
      repeat first [ exact csi_prefixed_CSI | apply csi_prefixed_app ]. }
  destruct Hp as [p ->]. exists p. now rewrite app_assoc.
Qed.

(** ** The shortcut parser and the matcher *)

Lemma endswith_plus_replaced (s : str) :
  endswith (removelast s ++ lit "plus") (lit "+") = false.
Proof.
  unfold endswith. rewrite rev_app_distr. reflexivity.
Qed.

(** C7: a spec that ends in [+] parses as the spec with that last [+]
    replaced by the token [plus]; [ctrl++] parses as [ctrl+plus] does, with
    mods [CTRL]. *)
Theorem parse_shortcut_trailing_plus :
  (forall s,
      endswith s (lit "+") = true ->
      parse_shortcut s = parse_shortcut (removelast s ++ lit "plus"))
  /\ parse_shortcut (lit "ctrl++") = parse_shortcut (lit "ctrl+plus")
  /\ ParsedShortcut.mods (parse_shortcut (lit "ctrl++")) = CTRL.
Proof.
  assert (H : forall s, endswith s (lit "+") = true ->
                        parse_shortcut s = parse_shortcut (removelast s ++ lit "plus")).
  { intros s Hs. unfold parse_shortcut.
    rewrite Hs, endswith_plus_replaced. reflexivity. }
  split; [ exact H | split ].
  - apply (H (lit "ctrl++")). reflexivity.
  - reflexivity.
Qed.

Lemma parse_shortcut_hash :
  dict_get str_eqb functional_key_name_aliases (lit "#") = None ->
  dict_get str_eqb character_key_name_aliases (lit "#") = None ->
  parse_shortcut (lit "#") = ParsedShortcut.mk 0 (lit "#").
Proof.
  intros Hf Hc.
  assert (Ef : dict_get_or str_eqb functional_key_name_aliases (lit "#") (lit "#")
               = lit "#") by (unfold dict_get_or; now rewrite Hf).
  assert (Ec : dict_get_or str_eqb character_key_name_aliases (lit "#") (lit "#")
               = lit "#") by (unfold dict_get_or; now rewrite Hc).
  unfold parse_shortcut.
  change (endswith (lit "#") (lit "+")) with false. cbv iota zeta.
  change (split 43 (lit "#")) with [lit "#"].
  change (last [lit "#"] []) with (lit "#").
  change (upper (lit "#")) with (lit "#").
  rewrite Ef.
  change (upper (lit "#")) with (lit "#").
  replace (dict_mem str_eqb get_name_to_functional_number_map (lit "#"))
    with false by (vm_compute; reflexivity).
  rewrite Ec. reflexivity.
Qed.

(** C6: a PRESS event with shift held, key [3], shifted key [#] and mods
    [SHIFT] matches the spec [#] (the SHIFT bit is stripped and the shifted
    key compared) and does not match [shift+3]; the alias tables are assumed
    not to rename [#]. *)
Theorem shift_alias_matching (e : KeyEvent) :
  dict_get str_eqb functional_key_name_aliases (lit "#") = None ->
  dict_get str_eqb character_key_name_aliases (lit "#") = None ->
  type e = EventType.PRESS ->
  shift e = true ->
  shifted_key e = lit "#" ->
  key e = lit "3" ->
  mods e = SHIFT ->
  matches e (inl (lit "#")) default_types = true
  /\ matches e (inl (lit "shift+3")) default_types = false.
Proof.
  intros Hf Hc Hty Hsh Hsk Hk Hm.
  unfold matches. rewrite Hty, Hsh, Hsk, Hm.
  change (negb (truthy (Z.land (EventType.value EventType.PRESS) default_types)))
    with false.
  change (truthy_str (lit "#") && true) with true. cbv iota.
  change (Z.land SHIFT (Z.lnot SHIFT)) with 0.
  split.
  - rewrite (parse_shortcut_hash Hf Hc). reflexivity.
  - replace (ParsedShortcut.mods (parse_shortcut (lit "shift+3"))) with SHIFT
      by reflexivity.
    reflexivity.
Qed.

(** ** The window-system bridge *)

Lemma returns_true {A : Type} (r : result A) :
  returns r = true -> exists a, r = Return a.
Proof. destruct r; [ now eexists | discriminate ]. Qed.

Lemma functional_names_as_num :
  forallb (fun kv => returns (as_num (snd kv))) functional_key_number_to_name_map
  = true.
Proof. vm_compute. reflexivity. Qed.

Lemma as_num_one_char (c : Z) : exists v, as_num [c] = Return v.
Proof.
  unfold as_num. cbn [truthy_str].
  destruct (dict_get str_eqb get_name_to_functional_number_map [c]) as [ n | ];
    [ destruct (truthy n) | ]; now eexists.
Qed.

(** Every name the decoder resolves converts to a number. *)
Lemma key_name_as_num (csi_type : str) (num : Z) (s : str) :
  key_name csi_type num = Return s -> exists v, as_num s = Return v.
Proof.
  unfold key_name. destruct (negb (truthy num)).
  { intros [= <-]. now exists 0. }
  destruct (negb (num =? 13)).
  - set (num' := dict_get_or Z.eqb csi_number_to_functional_number_map num num).
    destruct (dict_get Z.eqb functional_key_number_to_name_map num')
      as [ ans | ] eqn:E.
    + intros [= <-]. apply dict_get_In in E; [ | exact Zeqb_true ].
      pose proof functional_names_as_num as H.
      rewrite forallb_forall in H. apply returns_true. exact (H _ E).
    + unfold chr. destruct (_ || _); [ discriminate | ].
      destruct (_ || _); [ discriminate | ].
      intros [= <-]. apply as_num_one_char.
  - destruct (str_eqb csi_type (lit "u")); intros [= <-];
      eexists; vm_compute; reflexivity.
Qed.

Lemma as_window_system_event_decoded (csi csi_type : str) (e : KeyEvent) :
  decode_key_event csi csi_type = Return e ->
  exists w, as_window_system_event e = Return w.
Proof.
  intros H.
  destruct (decode_key_event_inv _ _ _ H)
    as (p0 & first & second & third & keynum & chars
        & _ & _ & _ & _ & _ & Hk & Hs & Ha & _).
  apply key_name_as_num in Hk as [k Hk].
  apply key_name_as_num in Hs as [sk Hs].
  apply key_name_as_num in Ha as [ak Ha].
  unfold as_window_system_event. rewrite Hk, Hs, Ha. cbn [Py.bind].
  now eexists.
Qed.

(** On every text that is not empty the bridge returns: an event, or the
    absent result when the decoder fails. *)
Lemma bridge_returns_on_nonempty_text (text : str) :
  text <> [] ->
  exists r, decode_key_event_as_window_system_key text = Return r.
Proof.
  intros Hne. unfold decode_key_event_as_window_system_key.
  destruct text as [ | c r ]; [ contradiction | ].
  cbn [getitem_last Py.bind].
  destruct (decode_key_event (slice_2_m1 (c :: r)) [last r c]) as [ k | ex ] eqn:E;
    cbn [Py.bind try_except].
  - destruct (as_window_system_event_decoded _ _ _ E) as [w Hw].
    rewrite Hw. cbn [Py.bind]. now eexists.
  - now eexists.
Qed.

(** C8 (what the code does at the failing input): on the empty text the bridge
    raises [IndexError]: the trailer [text[-1]] is taken before the [try]. *)
Theorem bridge_raises_on_empty_text :
  decode_key_event_as_window_system_key [] = Raise IndexError.
Proof. reflexivity. Qed.

(** ** Unknown modifiers *)

Lemma removelast_two {A : Type} (a b : A) (r : list A) :
  removelast (a :: b :: r) = a :: removelast (b :: r).
Proof. reflexivity. Qed.

(** A spec with an unknown modifier token parses to mods with the bit
    [SUPER << 8] set. *)
Lemma unknown_modifier_bit (spec : str) :
  has_unknown_modifier spec = true ->
  Z.testbit (ParsedShortcut.mods (parse_shortcut spec)) 11 = true.
Proof.
  unfold has_unknown_modifier, parse_shortcut. cbv zeta.
  set (spec' := if endswith spec (lit "+") then _ else _).
  set (parts := split 43 spec'). intros H.
  cbn [ParsedShortcut.mods].
  assert (Hlen : (1 <? Z.of_nat (List.length parts)) = true).
  { apply Z.ltb_lt. destruct parts as [ | a [ | b r ] ]; cbn in H;
      try discriminate. cbn [List.length]. lia. }
  rewrite Hlen, fold_left_lor_testbit. cbn [orb Z.testbit].
  apply existsb_exists in H as (x & Hin & Hx).
  apply existsb_exists. exists (Z.shiftl SUPER 8). split; [ | reflexivity ].
  apply in_map_iff. exists x. split; [ | exact Hin ].
  unfold dict_get_or, dict_mem in *.
  destruct (dict_get str_eqb config_mod_map (upper x)); [ discriminate | reflexivity ].
Qed.

(** C9 (as amended): a spec with a modifier token outside the modifier table
    parses to mods that carry the bit [SUPER << 8], and no event whose mods
    have that bit clear matches it, whatever the types mask. *)
Theorem unknown_modifier_never_matches (spec : str) (e : KeyEvent) (types : Z) :
  has_unknown_modifier spec = true ->
  Z.testbit (mods e) 11 = false ->
  Z.land (ParsedShortcut.mods (parse_shortcut spec)) (Z.shiftl SUPER 8)
  = Z.shiftl SUPER 8
  /\ matches e (inl spec) types = false.
Proof.
  intros Hu Hbit. pose proof (unknown_modifier_bit _ Hu) as Hp. split.
  - apply Z.bits_inj'. intros i Hi. rewrite Z.land_spec.
    change (Z.shiftl SUPER 8) with (2 ^ 11).
    destruct (Z.eq_dec i 11) as [ -> | Hne ].
    + rewrite Hp. reflexivity.
    + rewrite (Z.pow2_bits_false 11 i) by lia. apply andb_false_r.
  - unfold matches.
    destruct (negb (truthy (Z.land (EventType.value (type e)) types)));
      [ reflexivity | ].
    set (q := if truthy_str (shifted_key e) && shift e then _ else _).
    assert (Hq : Z.testbit q 11 = false).
    { subst q. destruct (truthy_str (shifted_key e) && shift e);
        [ | exact Hbit ].
      rewrite Z.land_spec, Hbit. reflexivity. }
    destruct (q =? ParsedShortcut.mods (parse_shortcut spec)) eqn:E;
      [ | reflexivity ].
    apply Z.eqb_eq in E. rewrite E in Hq. congruence.
Qed.

(** ** Modifiers on the wire *)

Lemma int_empty : int [] = Raise ValueError.
Proof. reflexivity. Qed.

Lemma get_sub_sections_number (n missing : Z) :
  0 <= n < 2 ^ 640 -> get_sub_sections (str_of_int n) missing = Return [n].
Proof.
  intros Hn. destruct (str_of_int_spec n (proj1 Hn)) as (Hd & Hne & _).
  unfold get_sub_sections.
  rewrite split_not_in by (apply (digits_not_in _ _ Hd); lia).
  cbn [mapM]. destruct (str_of_int n) as [ | c r ] eqn:E; [ contradiction | ].
  cbn [truthy_str]. rewrite <- E, (int_str_of_int n Hn). reflexivity.
Qed.

(** C10: the decoder does not mask the modifier value of the wire.  Whenever
    it returns an event for a payload whose second section starts with the
    integer [n], the event has mods [n - 1]; for every [n >= 1] (of at most
    640 digits, which no digit cap refuses) the payload [1;n] with trailer [u]
    is decoded, to an event with mods [n - 1]; so
    [1;2049] gives mods 2048, the bit [SUPER << 8]. *)
Theorem decode_mods_unmasked :
  (forall csi csi_type e p1 y n,
      decode_key_event csi csi_type = Return e ->
      nth_error (split 59 csi) 1 = Some p1 ->
      nth_error (split 58 p1) 0 = Some y ->
      int y = Return n ->
      mods e = n - 1)
  /\ (forall n,
         1 <= n < 2 ^ 640 ->
         decode_key_event (lit "1;" ++ str_of_int n) (lit "u")
         = Return (mkKeyEvent EventType.PRESS (n - 1) [1] [] [] []
                     (truthy (Z.land (n - 1) SHIFT)) (truthy (Z.land (n - 1) ALT))
                     (truthy (Z.land (n - 1) CTRL)) (truthy (Z.land (n - 1) SUPER))))
  /\ (exists e,
         decode_key_event (lit "1;2049") (lit "u") = Return e
         /\ mods e = Z.shiftl SUPER 8).
Proof.
  split; [ | split ].
  - intros csi csi_type e p1 y n Hd Hp1 Hy Hn.
    destruct (decode_key_event_inv _ _ _ Hd)
      as (p0 & first & second & third & keynum & chars
          & _ & _ & E2 & _ & _ & _ & _ & _ & Hm & _).
    assert (Hlen : (1 <? Z.of_nat (List.length (split 59 csi))) = true).
    { apply Z.ltb_lt.
      assert (nth_error (split 59 csi) 1 <> None) as Hnn by congruence.
      apply nth_error_Some in Hnn. lia. }
    rewrite Hlen in E2. unfold getitem in E2. rewrite Hp1 in E2.
    cbn [Py.bind] in E2. unfold get_sub_sections in E2.
    destruct (split 58 p1) as [ | y' r ]; [ discriminate | ].
    injection Hy as ->. cbn [mapM] in E2.
    destruct y as [ | c s ]; [ rewrite int_empty in Hn; discriminate | ].
    cbn [truthy_str] in E2. rewrite Hn in E2. cbn [Py.bind] in E2.
    destruct (mapM _ r); cbn [Py.bind] in E2; [ | discriminate ].
    injection E2 as <-. exact Hm.
  - intros n Hn.
    destruct (str_of_int_spec n ltac:(lia)) as (Hd & Hne & _).
    assert (Hn' : 0 <= n < 2 ^ 640) by lia.
    unfold decode_key_event.
    change (lit "1;" ++ str_of_int n) with (lit "1" ++ 59 :: str_of_int n).
    rewrite split_app_sep by (cbn; intros [H | []]; discriminate).
    rewrite split_not_in by (apply (digits_not_in _ _ Hd); lia).
    cbn [getitem nth_error Py.bind List.length Z.of_nat].
    change (get_sub_sections (lit "1") 0) with (Return (A := list Z) [1]).
    cbn [Py.bind].
    change (1 <? Z.pos (Pos.of_succ_nat 1)) with true.
    change (2 <? Z.pos (Pos.of_succ_nat 1)) with false.
    cbv iota. rewrite (get_sub_sections_number n 1 Hn').
    cbn [Py.bind nth_error List.length Z.of_nat].
    reflexivity.
  - eexists. split; vm_compute; reflexivity.
Qed.

(** ** The round trip *)

Lemma decode_key_event_build (csi csi_type : str) :
  decode_key_event csi csi_type
  = (p0 <- getitem (split 59 csi) 0 ;;
     first_section <- get_sub_sections p0 0 ;;
     second_section <-
       (if 1 <? Z.of_nat (List.length (split 59 csi))
        then p1 <- getitem (split 59 csi) 1 ;; get_sub_sections p1 1
        else Return []) ;;
     third_section <-
       (if 2 <? Z.of_nat (List.length (split 59 csi))
        then p2 <- getitem (split 59 csi) 2 ;; get_sub_sections p2 0
        else Return []) ;;
     build_event first_section second_section third_section csi_type).
Proof. reflexivity. Qed.

Lemma in_join (c : Z) (sep : str) (l : list str) :
  In c (join sep l) -> In c sep \/ exists x, In x l /\ In c x.
Proof.
  induction l as [ | x r IH ]; [ intros [] | ].
  destruct r as [ | y r ].
  - cbn [join]. intros H. right. exists x. split; [ now left | exact H ].
  - change (join sep (x :: y :: r)) with (x ++ sep ++ join sep (y :: r)).
    intros H. apply in_app_or in H as [H | H].
    + right. exists x. split; [ now left | exact H ].
    + apply in_app_or in H as [H | H]; [ now left | ].
      destruct (IH H) as [H' | (z & Hz & Hc)]; [ now left | ].
      right. exists z. split; [ now right | exact Hc ].
Qed.

Lemma field_digits (o : option Z) :
  wf_field o -> Forall (fun c => is_digit c = true) (field o).
Proof.
  destruct o as [ n | ]; cbn [field wf_field]; intros H; [ | constructor ].
  now destruct (str_of_int_spec n (proj1 H)).
Qed.

Lemma section_text_chars (l : list (option Z)) (c : Z) :
  wf_section l -> In c (section_text l) -> c = 58 \/ 48 <= c <= 57.
Proof.
  intros [_ Hl] H. apply in_join in H as [H | (x & Hx & Hc)].
  - left. destruct H as [H | []]. now rewrite <- H.
  - right. apply in_map_iff in Hx as (o & <- & Ho).
    rewrite Forall_forall in Hl. specialize (Hl _ Ho).
    apply field_digits in Hl. rewrite Forall_forall in Hl.
    now apply digit_range, Hl.
Qed.

Lemma mapM_fields (missing : Z) (l : list (option Z)) :
  Forall wf_field l ->
  mapM (fun y => if truthy_str y then int y else Return missing) (map field l)
  = Return (values missing l).
Proof.
  induction 1 as [ | o l Ho Hl IH ]; [ reflexivity | ].
  cbn [map mapM values]. fold (values missing l). rewrite IH.
  destruct o as [ n | ]; cbn [field].
  - cbn [wf_field] in Ho.
    destruct (str_of_int_spec n (proj1 Ho)) as (_ & Hne & _).
    destruct (str_of_int n) as [ | c r ] eqn:E; [ contradiction | ].
    cbn [truthy_str]. rewrite <- E, (int_str_of_int n Ho). reflexivity.
  - reflexivity.
Qed.

(** Reading a section back gives its integers. *)
Lemma get_sub_sections_section_text (missing : Z) (l : list (option Z)) :
  wf_section l ->
  get_sub_sections (section_text l) missing = Return (values missing l).
Proof.
  intros [Hne Hl]. unfold get_sub_sections, section_text.
  change (lit ":") with [58]. rewrite split_join.
  - now apply mapM_fields.
  - destruct l; [ contradiction | discriminate ].
  - apply Forall_forall. intros x Hx.
    apply in_map_iff in Hx as (o & <- & Ho).
    rewrite Forall_forall in Hl. specialize (Hl _ Ho).
    apply field_digits in Hl. apply (digits_not_in _ _ Hl). lia.
Qed.

Lemma split_payload_text (sections : list (list (option Z))) :
  sections <> [] -> Forall wf_section sections ->
  split 59 (payload_text sections) = map section_text sections.
Proof.
  intros Hne Hs. unfold payload_text. change (lit ";") with [59].
  apply split_join.
  - destruct sections; [ contradiction | discriminate ].
  - apply Forall_forall. intros x Hx.
    apply in_map_iff in Hx as (l & <- & Hl).
    rewrite Forall_forall in Hs. specialize (Hs _ Hl).
    intros Hin. apply (section_text_chars _ _ Hs) in Hin. lia.
Qed.

(** Decoding a payload written from sections builds the event from the
    integers of the first three. *)
Lemma decode_payload_text (s0 : list (option Z)) (rest : list (list (option Z)))
  (csi_type : str) :
  Forall wf_section (s0 :: rest) ->
  decode_key_event (payload_text (s0 :: rest)) csi_type
  = build_event (values 0 s0)
      (match rest with s1 :: _ => values 1 s1 | [] => [] end)
      (match rest with _ :: s2 :: _ => values 0 s2 | _ => [] end)
      csi_type.
Proof.
  intros Hwf. rewrite decode_key_event_build.
  rewrite split_payload_text by (discriminate || exact Hwf).
  apply Forall_cons_iff in Hwf as [H0 Hrest].
  cbn [map getitem nth_error Py.bind].
  rewrite (get_sub_sections_section_text 0 s0 H0). cbn [Py.bind].
  destruct rest as [ | s1 rest ].
  { reflexivity. }
  apply Forall_cons_iff in Hrest as [H1 Hrest].
  cbn [map List.length getitem nth_error].
  replace (1 <? Z.of_nat (S (S (List.length (map section_text rest)))))
    with true by (symmetry; apply Z.ltb_lt; lia).
  cbn [getitem nth_error Py.bind]. rewrite (get_sub_sections_section_text 1 s1 H1).
  cbn [Py.bind].
  destruct rest as [ | s2 rest ].
  { reflexivity. }
  apply Forall_cons_iff in Hrest as [H2 Hrest].
  cbn [map List.length getitem nth_error].
  replace (2 <? Z.of_nat (S (S (S (List.length (map section_text rest))))))
    with true by (symmetry; apply Z.ltb_lt; lia).
  cbn [getitem nth_error Py.bind]. rewrite (get_sub_sections_section_text 0 s2 H2).
  reflexivity.
Qed.

Lemma section_text_of_text (t : str) :
  section_text (map Some t) = join (lit ":") (map str_of_int t).
Proof. unfold section_text. now rewrite map_map. Qed.

(** The encoder writes the sections of [wire_sections], framed by the
    sequence introducer and the trailer. *)
Lemma encode_key_event_wire (e : KeyEvent) (k sk ak : Z) :
  csi_number_for_name (key e) = Return k ->
  csi_number_for_name (shifted_key e) = Return sk ->
  csi_number_for_name (alternate_key e) = Return ak ->
  encode_key_event e
  = Return (CSI ++ payload_text (wire_sections (encoder_keynum (key e) k) sk ak e)
              ++ encoder_trailer (key e) k).
Proof.
  intros Ek Esk Eak. unfold encode_key_event. cbv zeta.
  rewrite Ek, Esk, Eak. cbn [Py.bind].
  fold (encoder_trailer0 (key e) k).
  fold (encoder_keynum (key e) k).
  fold (encoder_trailer (key e) k).
  rewrite (app_assoc CSI).
  apply (f_equal (fun x => Return (x ++ encoder_trailer (key e) k))).
  unfold wire_sections, wire_first, wire_second, wire_third.
  fold (wire_mods e). fold (wire_action e).
  destruct (negb (encoder_keynum (key e) k =? 1)), (truthy (mods e)),
    (truthy sk), (truthy ak), (truthy_str (text e)), (1 <? wire_action e),
    (truthy (wire_mods e));
    cbn [orb app map join payload_text section_text field];
    rewrite ?section_text_of_text;
    rewrite <- ?app_assoc, ?app_nil_r; reflexivity.
Qed.

(** *** Names the decoder resolves *)

Lemma csi_targets_functional :
  forallb (fun kv => dict_mem Z.eqb functional_key_number_to_name_map (snd kv))
          csi_number_to_functional_number_map = true.
Proof. vm_compute. reflexivity. Qed.

Lemma letter_numbers_in_tables :
  forallb (fun kv =>
             dict_mem Z.eqb csi_number_to_functional_number_map (fst kv)
             || dict_mem Z.eqb functional_key_number_to_name_map (fst kv))
          get_csi_number_to_letter_trailer_map = true.
Proof. vm_compute. reflexivity. Qed.

Lemma functional_names_long :
  forallb (fun kv => 2 <=? Z.of_nat (List.length (fst kv)))
          get_name_to_functional_number_map = true.
Proof. vm_compute. reflexivity. Qed.

Lemma functional_names_round_trip :
  forallb (fun kv => functional_name_round_trips (snd kv))
          functional_key_number_to_name_map = true.
Proof. vm_compute. reflexivity. Qed.

Lemma chr_inv (n : Z) (s : str) :
  chr n = Return s -> s = [n] /\ 0 <= n <= 1114111.
Proof.
  unfold chr. destruct (_ || _); [ discriminate | ].
  destruct ((n <? 0) || (1114111 <? n)) eqn:E; [ discriminate | ].
  apply orb_false_iff in E as [E1 E2].
  apply Z.ltb_ge in E1, E2. intros [= <-]. split; [ reflexivity | lia ].
Qed.

Lemma chr_in_range (n : Z) : 0 <= n <= 1114111 -> chr n = Return [n].
Proof.
  intros H. unfold chr.
  replace ((n <? -2147483648) || (2147483647 <? n)) with false
    by (symmetry; apply orb_false_iff; split; apply Z.ltb_ge; lia).
  replace ((n <? 0) || (1114111 <? n)) with false
    by (symmetry; apply orb_false_iff; split; apply Z.ltb_ge; lia).
  reflexivity.
Qed.

Lemma key_name_decoded_name (csi_type : str) (num : Z) (s : str) :
  key_name csi_type num = Return s -> decoded_name s.
Proof.
  unfold key_name. destruct (negb (truthy num)) eqn:Et.
  { intros [= <-]. constructor. }
  apply negb_false_iff in Et.
  destruct (negb (num =? 13)).
  - unfold dict_get_or.
    destruct (dict_get Z.eqb csi_number_to_functional_number_map num)
      as [ v | ] eqn:Ec.
    + destruct (dict_get Z.eqb functional_key_number_to_name_map v)
        as [ ans | ] eqn:Ef.
      * intros [= <-]. apply dict_get_In in Ef; [ | exact Zeqb_true ].
        now apply (decoded_functional v).
      * apply dict_get_In in Ec; [ | exact Zeqb_true ].
        pose proof csi_targets_functional as H.
        rewrite forallb_forall in H. specialize (H _ Ec).
        unfold dict_mem in H. cbn [snd] in H. rewrite Ef in H. discriminate.
    + destruct (dict_get Z.eqb functional_key_number_to_name_map num)
        as [ ans | ] eqn:Ef.
      * intros [= <-]. apply dict_get_In in Ef; [ | exact Zeqb_true ].
        now apply (decoded_functional num).
      * intros H. apply chr_inv in H as [-> Hr]. now constructor.
  - destruct (str_eqb csi_type (lit "u")); intros [= <-].
    + apply (decoded_functional 57345).
      apply (dict_get_In Z.eqb); [ exact Zeqb_true | reflexivity ].
    + apply (decoded_functional 57366).
      apply (dict_get_In Z.eqb); [ exact Zeqb_true | reflexivity ].
Qed.

Lemma result_str_eqb_true (a : result str) (s : str) :
  result_str_eqb a (Return s) = true -> a = Return s.
Proof.
  destruct a as [ x | ]; cbn; [ | discriminate ].
  intros H. now apply str_eqb_eq in H as ->.
Qed.

Lemma key_name_not_13 (t t' : str) (k : Z) :
  k <> 13 -> key_name t k = key_name t' k.
Proof.
  intros H. unfold key_name.
  apply Z.eqb_neq in H. rewrite H. reflexivity.
Qed.

Lemma functional_name_facts (fn : Z) (s : str) :
  In (fn, s) functional_key_number_to_name_map ->
  exists k c, key_round_trip s k c /\ side_round_trip s k.
Proof.
  intros Hin. pose proof functional_names_round_trip as H.
  rewrite forallb_forall in H. specialize (H _ Hin). cbn [snd] in H.
  unfold functional_name_round_trips in H.
  destruct (csi_number_for_name s) as [ k | ] eqn:Ek; [ | discriminate ].
  cbv zeta in H.
  repeat (apply andb_true_iff in H as [H ?]).
  match goal with Hl : (Z.of_nat (List.length _) =? 1) = true |- _ =>
    apply Z.eqb_eq in Hl;
    destruct (encoder_trailer s k) as [ | c [ | d r ] ] eqn:Et;
    cbn [List.length] in Hl; try lia; clear Hl end.
  match goal with Hp : (0 <? k) = true |- _ => apply Z.ltb_lt in Hp end.
  match goal with Hq : (k <=? 1114111) = true |- _ => apply Z.leb_le in Hq end.
  match goal with Hr : result_str_eqb (rekey _ (encoder_keynum _ _)) _ = true |- _ =>
    apply result_str_eqb_true in Hr end.
  assert (Hs : s <> []).
  { intros ->. cbn in Ek. injection Ek as <-. lia. }
  exists k, c. split.
  - repeat split; try assumption; try lia.
    intros Hk1. right.
    match goal with Ho : (negb _ || _) = true |- _ =>
      rewrite Hk1 in Ho; cbn in Ho; now apply result_str_eqb_true in Ho end.
  - repeat split; try assumption; try lia.
    + destruct s; [ contradiction | ]. cbn [truthy_str]. unfold truthy.
      apply negb_true_iff, Z.eqb_neq. lia.
    + intros ->.
      match goal with Hb : Bool.eqb _ _ = true |- _ =>
        change (13 =? 13) with true in Hb; apply Bool.eqb_prop in Hb;
        symmetry in Hb; now apply str_eqb_eq in Hb end.
    + intros Hne t.
      match goal with Ho : ((k =? 13) || _) = true |- _ =>
        apply Z.eqb_neq in Hne; rewrite Hne in Ho; cbn [orb] in Ho;
        apply result_str_eqb_true in Ho; rewrite <- Ho end.
      apply key_name_not_13. now apply Z.eqb_neq.
Qed.

Lemma one_char_not_functional (n : Z) :
  dict_get str_eqb get_name_to_functional_number_map [n] = None.
Proof.
  destruct (dict_get str_eqb get_name_to_functional_number_map [n])
    as [ fn | ] eqn:E; [ | reflexivity ].
  apply dict_get_In in E; [ | exact str_eqb_true ].
  pose proof functional_names_long as H.
  rewrite forallb_forall in H. specialize (H _ E). discriminate.
Qed.

Lemma letter_of_number_absent (n : Z) :
  dict_get Z.eqb csi_number_to_functional_number_map n = None ->
  dict_get Z.eqb functional_key_number_to_name_map n = None ->
  dict_get Z.eqb get_csi_number_to_letter_trailer_map n = None.
Proof.
  intros Hc Hf.
  destruct (dict_get Z.eqb get_csi_number_to_letter_trailer_map n) eqn:E;
    [ | reflexivity ].
  apply dict_get_In in E; [ | exact Zeqb_true ].
  pose proof letter_numbers_in_tables as H.
  rewrite forallb_forall in H. specialize (H _ E).
  unfold dict_mem in H. cbn [fst] in H. rewrite Hc, Hf in H. discriminate.
Qed.

Lemma one_char_not_ENTER (n : Z) : str_eqb [n] (lit "ENTER") = false.
Proof. cbn. apply andb_false_r. Qed.

Lemma char_name_facts (n : Z) :
  0 <= n <= 1114111 ->
  truthy n = true ->
  dict_get Z.eqb csi_number_to_functional_number_map n = None ->
  dict_get Z.eqb functional_key_number_to_name_map n = None ->
  key_round_trip [n] n 117 /\ side_round_trip [n] n
  /\ encoder_keynum [n] n = n.
Proof.
  intros Hr Ht Hc Hf.
  assert (Hn13 : (n =? 13) = false).
  { apply Z.eqb_neq. intros ->. discriminate. }
  assert (Ek : csi_number_for_name [n] = Return n).
  { unfold csi_number_for_name. cbn [truthy_str negb].
    now rewrite one_char_not_functional. }
  assert (Et0 : encoder_trailer0 [n] n = lit "u").
  { unfold encoder_trailer0, dict_get_or.
    now rewrite one_char_not_ENTER, (letter_of_number_absent n Hc Hf). }
  assert (Ekn : encoder_keynum [n] n = n).
  { unfold encoder_keynum. now rewrite Et0. }
  assert (Et : encoder_trailer [n] n = [117]).
  { unfold encoder_trailer. now rewrite one_char_not_functional, Et0. }
  assert (Hkn : forall t, key_name t n = Return [n]).
  { intros t. unfold key_name, dict_get_or.
    rewrite Ht, Hn13, Hc, Hf. cbn [negb]. now apply chr_in_range. }
  repeat split; try assumption; try lia.
  - unfold rekey, effective_keynum. rewrite Ekn.
    cbn [getitem nth_error Py.bind].
    change (contains (lit "ABCDHFPQRS") [117]) with false. cbv iota.
    cbn [Py.bind]. apply Hkn.
  - intros H1. left. congruence.
  - intros _ t. apply Hkn.
Qed.

Lemma empty_name_facts :
  key_round_trip [] 0 117 /\ side_round_trip [] 0 /\ encoder_keynum [] 0 = 0.
Proof.
  repeat split; try reflexivity; try lia; try discriminate.
Qed.

(** *** Putting the round trip together *)

Lemma decoded_name_facts (s : str) :
  decoded_name s -> exists k c, key_round_trip s k c /\ side_round_trip s k.
Proof.
  intros [ | fn s' Hin | n Hr Ht Hc Hf ].
  - exists 0, 117. destruct empty_name_facts as (H1 & H2 & _). now split.
  - now apply (functional_name_facts fn).
  - exists n, 117.
    destruct (char_name_facts n Hr Ht Hc Hf) as (H1 & H2 & _). now split.
Qed.

Lemma mapM_chr_inv (l : list Z) (chars : list str) :
  mapM chr l = Return chars ->
  List.concat chars = l /\ Forall (fun c => 0 <= c <= 1114111) l.
Proof.
  revert chars. induction l as [ | c l IH ]; intros chars; cbn [mapM].
  - intros [= <-]. split; [ reflexivity | constructor ].
  - destruct (chr c) as [ s | ] eqn:Ec; cbn [Py.bind]; [ | discriminate ].
    destruct (mapM chr l) as [ ys | ]; cbn [Py.bind]; [ | discriminate ].
    intros [= <-]. apply chr_inv in Ec as [-> Hc].
    destruct (IH ys eq_refl) as [Hy Hl].
    split; [ cbn; now rewrite Hy | now constructor ].
Qed.

Lemma mapM_chr_in_range (l : list Z) :
  Forall (fun c => 0 <= c <= 1114111) l ->
  exists chars, mapM chr l = Return chars /\ List.concat chars = l.
Proof.
  induction 1 as [ | c l Hc Hl (ys & Hy & Hcat) ].
  - exists []. split; reflexivity.
  - exists ([c] :: ys). cbn [mapM]. rewrite (chr_in_range c Hc), Hy.
    split; [ reflexivity | cbn; now rewrite Hcat ].
Qed.

Lemma values_map_Some (missing : Z) (l : list Z) :
  values missing (map Some l) = l.
Proof.
  unfold values. rewrite map_map. apply map_id.
Qed.

Lemma truthy_false (n : Z) : truthy n = false -> n = 0.
Proof. unfold truthy. intros H. now apply negb_false_iff, Z.eqb_eq in H. Qed.

(** The mask of the four booleans is the mods again when the mods lie in
    the four bits. *)
Lemma wire_mods_decoded (e : KeyEvent) :
  0 <= mods e <= 15 ->
  shift e = truthy (Z.land (mods e) SHIFT) ->
  alt e = truthy (Z.land (mods e) ALT) ->
  ctrl e = truthy (Z.land (mods e) CTRL) ->
  super e = truthy (Z.land (mods e) SUPER) ->
  wire_mods e = mods e.
Proof.
  intros Hr H1 H2 H3 H4. unfold wire_mods. rewrite H1, H2, H3, H4.
  assert (Hcases : mods e = 0 \/ mods e = 1 \/ mods e = 2 \/ mods e = 3
                   \/ mods e = 4 \/ mods e = 5 \/ mods e = 6 \/ mods e = 7
                   \/ mods e = 8 \/ mods e = 9 \/ mods e = 10 \/ mods e = 11
                   \/ mods e = 12 \/ mods e = 13 \/ mods e = 14 \/ mods e = 15)
    by lia.
  repeat (destruct Hcases as [ -> | Hcases ]; [ reflexivity | ]).
  rewrite Hcases. reflexivity.
Qed.

Lemma build_event_intro (first second third : list Z) (t : str)
  (m a keynum n1 n2 : Z) (k sk ak : str) (ty : EventType.t) (chars : list str) :
  (match second with
   | [] => Return 0
   | _ :: _ => n <- getitem second 0 ;; Return (n - 1)
   end) = Return m ->
  (if 1 <? Z.of_nat (List.length second) then getitem second 1 else Return 1)
  = Return a ->
  effective_keynum first t = Return keynum ->
  key_name t keynum = Return k ->
  (if 1 <? Z.of_nat (List.length first) then getitem first 1 else Return 0)
  = Return n1 ->
  key_name t n1 = Return sk ->
  (if 2 <? Z.of_nat (List.length first) then getitem first 2 else Return 0)
  = Return n2 ->
  key_name t n2 = Return ak ->
  action_type a = Return ty ->
  mapM chr third = Return chars ->
  build_event first second third t
  = Return (mkKeyEvent ty m k (List.concat chars) sk ak
              (truthy (Z.land m SHIFT)) (truthy (Z.land m ALT))
              (truthy (Z.land m CTRL)) (truthy (Z.land m SUPER))).
Proof.
  intros Hm Ha Hk Hkn Hn1 Hsk Hn2 Hak Hty Hch. unfold build_event.
  rewrite Hm. cbn [Py.bind]. rewrite Ha. cbn [Py.bind].
  rewrite Hk. cbn [Py.bind]. rewrite Hkn. cbn [Py.bind].
  rewrite Hn1. cbn [Py.bind]. rewrite Hsk. cbn [Py.bind].
  rewrite Hn2. cbn [Py.bind]. rewrite Hak. cbn [Py.bind].
  rewrite Hty. cbn [Py.bind]. rewrite Hch. reflexivity.
Qed.

(** The decoder's reading of the second and third sections the encoder
    writes. *)
Lemma wire_rest_decoded (e : KeyEvent) :
  wire_mods e = mods e ->
  let rest := wire_second e ++ wire_third e in
  let sec2 := match rest with s1 :: _ => values 1 s1 | [] => [] end in
  let sec3 := match rest with _ :: s2 :: _ => values 0 s2 | _ => [] end in
  (match sec2 with
   | [] => Return 0
   | _ :: _ => n <- getitem sec2 0 ;; Return (n - 1)
   end) = Return (mods e)
  /\ (if 1 <? Z.of_nat (List.length sec2) then getitem sec2 1 else Return 1)
     = Return (wire_action e)
  /\ sec3 = text e.
Proof.
  intros Hm. unfold wire_second, wire_third. rewrite Hm.
  unfold wire_action.
  assert (Hnil : truthy_str (text e) = false -> [] = text e).
  { destruct (text e); [ reflexivity | discriminate ]. }
  destruct (truthy (mods e)) eqn:Et;
    [ | apply truthy_false in Et; rewrite Et ];
    destruct (type e); destruct (truthy_str (text e));
    cbn -[Z.add Z.sub values]; rewrite ?values_map_Some;
    cbn -[Z.add Z.sub];
    repeat split; try reflexivity; try (now apply Hnil); f_equal; lia.
Qed.

(** The decoder's reading of the first section the encoder writes. *)
Lemma wire_first_decoded (k sk ak : Z) (e : KeyEvent) (t : str) :
  let f := values 0 (wire_first k sk ak e) in
  (if 1 <? Z.of_nat (List.length f) then getitem f 1 else Return 0) = Return sk
  /\ (if 2 <? Z.of_nat (List.length f) then getitem f 2 else Return 0) = Return ak
  /\ effective_keynum f t
     = effective_keynum
         [if negb (k =? 1) || truthy (mods e) || truthy sk || truthy ak
             || truthy_str (text e) then k else 0] t.
Proof.
  unfold wire_first.
  destruct (negb (k =? 1) || truthy (mods e) || truthy sk || truthy ak
            || truthy_str (text e));
    destruct (truthy sk) eqn:Es; [ | apply truthy_false in Es; subst sk | | apply truthy_false in Es; subst sk ];
    (destruct (truthy ak) eqn:Ea; [ | apply truthy_false in Ea; subst ak ]);
    cbn; repeat split; reflexivity.
Qed.

Lemma wire_sections_wf (k sk ak : Z) (e : KeyEvent) :
  0 <= k <= 1114111 -> 0 <= sk <= 1114111 -> 0 <= ak <= 1114111 ->
  0 <= wire_mods e <= 15 ->
  Forall (fun c => 0 <= c <= 1114111) (text e) ->
  Forall wf_section (wire_sections k sk ak e).
Proof.
  intros Hk Hsk Hak Hm Ht.
  assert (Ha : 0 <= wire_action e <= 3)
    by (unfold wire_action; destruct (type e); lia).
  pose proof (code_point_short 1114111 ltac:(lia)) as Hbound.
  assert (Htext : truthy_str (text e) = true -> wf_section (map Some (text e))).
  { intros Hne. split.
    - destruct (text e); discriminate.
    - apply Forall_map. refine (Forall_impl _ _ Ht).
      intros c Hc. cbn [wf_field]. lia. }
  unfold wire_sections, wire_first, wire_second, wire_third.
  destruct (negb (k =? 1) || truthy (mods e) || truthy sk || truthy ak
            || truthy_str (text e)),
    (truthy (mods e) || (1 <? wire_action e) || truthy_str (text e)),
    ((1 <? wire_action e) || truthy (wire_mods e)),
    (truthy sk || truthy ak), (truthy sk), (truthy ak), (1 <? wire_action e),
    (truthy_str (text e)); cbn [app];
    repeat match goal with
      | |- Forall wf_section (_ :: _) => constructor
      | |- Forall wf_section [] => constructor
      | |- wf_section (map Some _) => now apply Htext
      | |- wf_section _ => split; [ discriminate | ]
      | |- Forall _ (_ :: _) => constructor
      | |- Forall _ [] => constructor
      | |- wf_field (Some _) => cbn [wf_field]; lia
      | |- wf_field None => exact I
      end.
Qed.

Lemma truthy_str_false (s : str) : truthy_str s = false -> s = [].
Proof. destruct s; [ reflexivity | discriminate ]. Qed.

Lemma rekey_inv (t : str) (x : Z) (s : str) :
  rekey t x = Return s ->
  exists keynum, effective_keynum [x] t = Return keynum
                 /\ key_name t keynum = Return s.
Proof.
  unfold rekey. destruct (effective_keynum [x] t) as [ keynum | ];
    cbn [Py.bind]; [ | discriminate ].
  intros H. now exists keynum.
Qed.

(** C1 (as amended): an event the decoder produced is decoded again from the
    encoder's output when its mods lie in the four modifier bits, its key is
    not the character U+0001 standing alone (no mods, text, shifted or
    alternate key), and [ENTER] is its shifted or alternate key only if the
    encoder ends the sequence with the trailer [u]. *)
Theorem decode_encode_round_trip (csi csi_type : str) (e : KeyEvent) :
  decode_key_event csi csi_type = Return e ->
  0 <= mods e <= 15 ->
  (key e = [1] ->
   mods e <> 0 \/ shifted_key e <> [] \/ alternate_key e <> [] \/ text e <> []) ->
  (shifted_key e = lit "ENTER" \/ alternate_key e = lit "ENTER" ->
   encoded_trailer e = Return (lit "u")) ->
  decode_encoded e = Return e.
Proof.
  intros Hd Hmods Hkey1 Hside.
  destruct (decode_key_event_inv _ _ _ Hd)
    as (p0 & first & second & third & keynum & chars
        & _ & _ & _ & _ & _ & Hk & Hs & Ha & _ & _ & Hch & Htext
        & Hb1 & Hb2 & Hb3 & Hb4).
  apply key_name_decoded_name in Hk, Hs, Ha.
  destruct (decoded_name_facts _ Hk) as (k & c & (Ek & Hk0 & Etr & Hre & Hre0) & _).
  destruct (decoded_name_facts _ Hs) as (sk & _ & _ & (Esk & Hsk0 & Hskt & Hsk13 & Hskn)).
  destruct (decoded_name_facts _ Ha) as (ak & _ & _ & (Eak & Hak0 & Hakt & Hak13 & Hakn)).
  pose proof (wire_mods_decoded e Hmods Hb1 Hb2 Hb3 Hb4) as Hwm.
  destruct (mapM_chr_inv _ _ Hch) as [Hcat Hrange]. rewrite Hcat in Htext.
  rewrite <- Htext in Hrange. clear Hch Hcat Htext chars third.
  pose proof (encode_key_event_wire e k sk ak Ek Esk Eak) as Henc.
  rewrite Etr in Henc. set (k' := encoder_keynum (key e) k) in *.
  assert (Hk'0 : 0 <= k' <= 1114111).
  { subst k'. unfold encoder_keynum. destruct (negb _); lia. }
  assert (Htr : encoded_trailer e = Return [c]).
  { unfold encoded_trailer. rewrite Henc. cbn [Py.bind].
    apply getitem_last_framed. }
  unfold decode_encoded. rewrite Henc. cbn [Py.bind].
  rewrite getitem_last_framed, slice_2_m1_framed. cbn [Py.bind].
  unfold wire_sections. rewrite decode_payload_text.
  2:{ apply wire_sections_wf; try assumption. lia. }
  destruct (wire_rest_decoded e Hwm) as (R1 & R2 & R3). cbv zeta in R1, R2, R3.
  destruct (wire_first_decoded k' sk ak e [c]) as (F1 & F2 & F3).
  cbv zeta in F1, F2, F3.
  destruct (mapM_chr_in_range _ Hrange) as (chars' & Hch' & Hcat').
  (* the key *)
  assert (Hkey : rekey [c]
                   (if negb (k' =? 1) || truthy (mods e) || truthy sk
                       || truthy ak || truthy_str (text e) then k' else 0)
                 = Return (key e)).
  { destruct (negb (k' =? 1)) eqn:E1; cbn [orb]; [ exact Hre | ].
    destruct (truthy (mods e)) eqn:E2; cbn [orb]; [ exact Hre | ].
    destruct (truthy sk) eqn:E3; cbn [orb]; [ exact Hre | ].
    destruct (truthy ak) eqn:E4; cbn [orb]; [ exact Hre | ].
    destruct (truthy_str (text e)) eqn:E5; [ exact Hre | ].
    apply negb_false_iff, Z.eqb_eq in E1.
    destruct (Hre0 E1) as [H1 | H0]; [ | exact H0 ].
    exfalso. apply truthy_false in E2.
    symmetry in Hskt, Hakt.
    apply truthy_str_false in Hskt, Hakt, E5.
    destruct (Hkey1 H1) as [ H | [ H | [ H | H ] ] ]; contradiction. }
  apply rekey_inv in Hkey as (keynum' & Hkn1 & Hkn2).
  rewrite <- F3 in Hkn1.
  (* the shifted and the alternate key *)
  assert (Hshift : key_name [c] sk = Return (shifted_key e)).
  { destruct (Z.eq_dec sk 13) as [ H13 | Hn13 ]; [ | now apply Hskn ].
    rewrite (Hsk13 H13) in *. rewrite Hside in Htr by now left.
    injection Htr as <-. subst sk. reflexivity. }
  assert (Halt : key_name [c] ak = Return (alternate_key e)).
  { destruct (Z.eq_dec ak 13) as [ H13 | Hn13 ]; [ | now apply Hakn ].
    rewrite (Hak13 H13) in *. rewrite Hside in Htr by now right.
    injection Htr as <-. subst ak. reflexivity. }
  assert (Hty : action_type (wire_action e) = Return (type e)).
  { unfold wire_action. destruct (type e); reflexivity. }
  rewrite R3 in *.
  rewrite (build_event_intro _ _ _ _ _ _ _ _ _ _ _ _ _ _
             R1 R2 Hkn1 Hkn2 F1 Hshift F2 Halt Hty Hch').
  rewrite Hcat', <- Hb1, <- Hb2, <- Hb3, <- Hb4.
  destruct e; reflexivity.
Qed.

(** ** Further properties of the tables and of the decoder *)

Lemma opt_Z_eqb_true (a b : option Z) : opt_Z_eqb a b = true -> a = b.
Proof.
  destruct a, b; cbn; try discriminate; [ | reflexivity ].
  intros H. now apply Z.eqb_eq in H as ->.
Qed.

Lemma opt_str_eqb_true (a b : option str) : opt_str_eqb a b = true -> a = b.
Proof.
  destruct a, b; cbn; try discriminate; [ | reflexivity ].
  intros H. now apply str_eqb_eq in H as ->.
Qed.

Lemma functional_table_inverted :
  forallb (fun kv => opt_Z_eqb
                       (dict_get str_eqb get_name_to_functional_number_map (snd kv))
                       (Some (fst kv)))
          functional_key_number_to_name_map = true
  /\ forallb (fun kv => opt_str_eqb
                          (dict_get Z.eqb functional_key_number_to_name_map (snd kv))
                          (Some (fst kv)))
             get_name_to_functional_number_map = true.
Proof. split; vm_compute; reflexivity. Qed.

Lemma csi_table_inverted :
  forallb (fun kv => opt_Z_eqb
                       (dict_get Z.eqb get_functional_to_csi_number_map (snd kv))
                       (Some (fst kv)))
          csi_number_to_functional_number_map = true
  /\ forallb (fun kv => opt_Z_eqb
                          (dict_get Z.eqb csi_number_to_functional_number_map (snd kv))
                          (Some (fst kv)))
             get_functional_to_csi_number_map = true.
Proof. split; vm_compute; reflexivity. Qed.

Lemma letter_table_inverted :
  forallb (fun kv => opt_str_eqb
                       (dict_get Z.eqb get_csi_number_to_letter_trailer_map (snd kv))
                       (Some (fst kv)))
          letter_trailer_to_csi_number_map = true
  /\ forallb (fun kv => opt_Z_eqb
                          (dict_get str_eqb letter_trailer_to_csi_number_map (snd kv))
                          (Some (fst kv)))
             get_csi_number_to_letter_trailer_map = true.
Proof. split; vm_compute; reflexivity. Qed.

Lemma name_of_functional_number (fn : Z) (name : str) :
  dict_get Z.eqb functional_key_number_to_name_map fn = Some name <->
  dict_get str_eqb get_name_to_functional_number_map name = Some fn.
Proof.
  destruct functional_table_inverted as [H1 H2].
  rewrite forallb_forall in H1, H2. split; intros H.
  - apply dict_get_In in H; [ | exact Zeqb_true ].
    exact (opt_Z_eqb_true _ _ (H1 _ H)).
  - apply dict_get_In in H; [ | exact str_eqb_true ].
    exact (opt_str_eqb_true _ _ (H2 _ H)).
Qed.

(** X1: the three cached inverse maps are inverses: a number has a name in
    [functional_key_number_to_name_map] exactly when the name has that number
    in [get_name_to_functional_number_map], and likewise for the CSI numbers
    and for the letter trailers. *)
Theorem inverse_maps_invert :
  (forall fn name,
      dict_get Z.eqb functional_key_number_to_name_map fn = Some name <->
      dict_get str_eqb get_name_to_functional_number_map name = Some fn)
  /\ (forall csi fn,
         dict_get Z.eqb csi_number_to_functional_number_map csi = Some fn <->
         dict_get Z.eqb get_functional_to_csi_number_map fn = Some csi)
  /\ (forall letter csi,
         dict_get str_eqb letter_trailer_to_csi_number_map letter = Some csi <->
         dict_get Z.eqb get_csi_number_to_letter_trailer_map csi = Some letter).
Proof.
  split; [ exact name_of_functional_number | split ].
  - destruct csi_table_inverted as [H1 H2].
    rewrite forallb_forall in H1, H2. intros csi fn. split; intros H.
    + apply dict_get_In in H; [ | exact Zeqb_true ].
      exact (opt_Z_eqb_true _ _ (H1 _ H)).
    + apply dict_get_In in H; [ | exact Zeqb_true ].
      exact (opt_Z_eqb_true _ _ (H2 _ H)).
  - destruct letter_table_inverted as [H1 H2].
    rewrite forallb_forall in H1, H2. intros letter csi. split; intros H.
    + apply dict_get_In in H; [ | exact str_eqb_true ].
      exact (opt_str_eqb_true _ _ (H1 _ H)).
    + apply dict_get_In in H; [ | exact Zeqb_true ].
      exact (opt_Z_eqb_true _ _ (H2 _ H)).
Qed.

Lemma land_bit (m k : Z) :
  0 <= k -> truthy (Z.land m (2 ^ k)) = Z.testbit m k.
Proof.
  intros Hk. unfold truthy.
  destruct (Z.testbit m k) eqn:E.
  - apply negb_true_iff, Z.eqb_neq. intros H.
    apply (f_equal (fun x => Z.testbit x k)) in H.
    rewrite Z.land_spec, E, Z.pow2_bits_true, Z.bits_0 in H by exact Hk.
    discriminate.
  - apply negb_false_iff, Z.eqb_eq. apply Z.bits_inj'. intros i Hi.
    rewrite Z.land_spec, Z.bits_0.
    destruct (Z.eq_dec i k) as [ -> | Hne ].
    + now rewrite E.
    + rewrite (Z.pow2_bits_false k i) by lia. apply andb_false_r.
Qed.

(** X2: in every event the decoder returns, the four booleans are the four
    low bits of mods: shift is bit 0, alt bit 1, ctrl bit 2, super bit 3. *)
Theorem decoded_booleans_mirror_mods (csi csi_type : str) (e : KeyEvent) :
  decode_key_event csi csi_type = Return e ->
  shift e = Z.testbit (mods e) 0
  /\ alt e = Z.testbit (mods e) 1
  /\ ctrl e = Z.testbit (mods e) 2
  /\ super e = Z.testbit (mods e) 3.
Proof.
  intros Hd.
  destruct (decode_key_event_inv _ _ _ Hd)
    as (p0 & first & second & third & keynum & chars
        & _ & _ & _ & _ & _ & _ & _ & _ & _ & _ & _ & _
        & Hb1 & Hb2 & Hb3 & Hb4).
  rewrite Hb1, Hb2, Hb3, Hb4.
  repeat split.
  - apply (land_bit (mods e) 0). lia.
  - apply (land_bit (mods e) 1). lia.
  - apply (land_bit (mods e) 2). lia.
  - apply (land_bit (mods e) 3). lia.
Qed.

Lemma decoded_name_is_key_name (s : str) : decoded_name s -> is_key_name s = true.
Proof.
  intros [ | fn s' Hin | n Hr Ht Hc Hf ]; [ reflexivity | | ].
  - unfold is_key_name, dict_mem.
    destruct functional_table_inverted as [H1 _].
    rewrite forallb_forall in H1. specialize (H1 _ Hin). cbn [fst snd] in H1.
    apply opt_Z_eqb_true in H1. rewrite H1. now rewrite orb_true_r.
  - unfold is_key_name. cbn [List.length Z.of_nat]. apply orb_true_r.
Qed.

(** X3: in every event the decoder returns, the key, the shifted key and the
    alternate key are names of the data model (empty, a name of the
    functional table, or one character) and the text holds code points of
    [range(0x110000)] only. *)
Theorem decoded_names_canonical (csi csi_type : str) (e : KeyEvent) :
  decode_key_event csi csi_type = Return e ->
  is_key_name (key e) = true
  /\ is_key_name (shifted_key e) = true
  /\ is_key_name (alternate_key e) = true
  /\ Forall (fun c => 0 <= c <= 1114111) (text e).
Proof.
  intros Hd.
  destruct (decode_key_event_inv _ _ _ Hd)
    as (p0 & first & second & third & keynum & chars
        & _ & _ & _ & _ & _ & Hk & Hs & Ha & _ & _ & Hch & Htext & _).
  apply key_name_decoded_name, decoded_name_is_key_name in Hk, Hs, Ha.
  destruct (mapM_chr_inv _ _ Hch) as [Hcat Hrange].
  rewrite Htext, Hcat. now repeat split.
Qed.

(** X4: a name the decoder resolves from a number goes back to a number that
    resolves to the same name under the trailer [u]: numbers and names round
    trip through [csi_number_for_name] and the decoder's [key_name]. *)
Theorem key_name_number_round_trip (csi_type : str) (num : Z) (s : str) :
  key_name csi_type num = Return s ->
  exists k, csi_number_for_name s = Return k
            /\ key_name (lit "u") k = Return s.
Proof.
  intros H. apply key_name_decoded_name in H.
  destruct (decoded_name_facts _ H) as (k & c & _ & (Ek & _ & _ & H13 & Hn13)).
  exists k. split; [ exact Ek | ].
  destruct (Z.eq_dec k 13) as [ E | E ].
  - rewrite (H13 E), E. reflexivity.
  - now apply Hn13.
Qed.

(** X5: the action of the wire decides the event type: when the decoder
    returns an event and the second subfield of the second section is the
    integer [a], then [a] is 1, 2 or 3 and the type is PRESS, REPEAT or
    RELEASE accordingly; when that subfield is empty the type is PRESS. *)
Theorem decoded_type_of_action (csi csi_type : str) (e : KeyEvent) (p1 y : str) :
  decode_key_event csi csi_type = Return e ->
  nth_error (split 59 csi) 1 = Some p1 ->
  nth_error (split 58 p1) 1 = Some y ->
  (y = [] -> type e = EventType.PRESS)
  /\ (forall a, int y = Return a ->
                (a = 1 /\ type e = EventType.PRESS)
                \/ (a = 2 /\ type e = EventType.REPEAT)
                \/ (a = 3 /\ type e = EventType.RELEASE)).
Proof.
  intros Hd Hp1 Hy.
  destruct (decode_key_event_inv _ _ _ Hd)
    as (p0 & first & second & third & keynum & chars
        & _ & _ & E2 & _ & _ & _ & _ & _ & _ & Hty & _).
  assert (Hlen : (1 <? Z.of_nat (List.length (split 59 csi))) = true).
  { apply Z.ltb_lt.
    assert (nth_error (split 59 csi) 1 <> None) as Hnn by congruence.
    apply nth_error_Some in Hnn. lia. }
  rewrite Hlen in E2. unfold getitem in E2. rewrite Hp1 in E2.
  cbn [Py.bind] in E2. unfold get_sub_sections in E2.
  destruct (split 58 p1) as [ | y0 [ | y1 r ] ]; try discriminate.
  injection Hy as ->. cbn [mapM] in E2.
  destruct (if truthy_str y0 then int y0 else Return 1) as [ n0 | ];
    cbn [Py.bind] in E2; [ | discriminate ].
  destruct (if truthy_str y then int y else Return 1) as [ a0 | ] eqn:Ea;
    cbn [Py.bind] in E2; [ | discriminate ].
  destruct (mapM _ r); cbn [Py.bind] in E2; [ | discriminate ].
  injection E2 as <-.
  assert (Hcases : forall act, a0 = act ->
            (act = 1 /\ type e = EventType.PRESS)
            \/ (act = 2 /\ type e = EventType.REPEAT)
            \/ (act = 3 /\ type e = EventType.RELEASE)).
  { intros act <-. unfold action_type, dict_item in Hty. cbn [dict_get] in Hty.
    destruct (1 =? a0) eqn:E1; [ apply Z.eqb_eq in E1; left | ].
    { injection Hty as <-. now split. }
    destruct (2 =? a0) eqn:E2; [ apply Z.eqb_eq in E2; right; left | ].
    { injection Hty as <-. now split. }
    destruct (3 =? a0) eqn:E3; [ apply Z.eqb_eq in E3; right; right | discriminate ].
    injection Hty as <-. now split. }
  split.
  - intros ->. cbn [truthy_str] in Ea. injection Ea as <-.
    destruct (Hcases 1 eq_refl) as [ [_ H] | [ [H _] | [H _] ] ];
      [ exact H | discriminate | discriminate ].
  - intros act Ha. destruct y as [ | c s ].
    + rewrite int_empty in Ha. discriminate.
    + cbn [truthy_str] in Ea. rewrite Ha in Ea. injection Ea as <-.
      now apply Hcases.
Qed.

(** ** Further properties of the encoder *)

Lemma csi_number_for_name_raises (s : str) :
  is_key_name s = false -> csi_number_for_name s = Raise TypeError.
Proof.
  unfold is_key_name, csi_number_for_name, dict_mem. intros H.
  apply orb_false_iff in H as [H Hlen].
  apply orb_false_iff in H as [Ht Hd].
  rewrite Ht.
  destruct (dict_get str_eqb get_name_to_functional_number_map s);
    [ discriminate | ].
  apply Z.eqb_neq in Hlen.
  destruct s as [ | c [ | d r ] ]; cbn [List.length] in Hlen; try reflexivity.
  lia.
Qed.

(** X6: the encoder returns exactly on events whose key, shifted key and
    alternate key are names of the data model; on any other event it raises
    [TypeError] (from [ord] of a name that is not one character). *)
Theorem encode_returns_iff_key_names (e : KeyEvent) :
  (is_key_name (key e) && is_key_name (shifted_key e)
   && is_key_name (alternate_key e) = true ->
   exists s, encode_key_event e = Return s)
  /\ (is_key_name (key e) && is_key_name (shifted_key e)
      && is_key_name (alternate_key e) = false ->
      encode_key_event e = Raise TypeError).
Proof.
  split; intros H.
  - apply andb_true_iff in H as [H Ha]. apply andb_true_iff in H as [Hk Hs].
    destruct (csi_number_for_name_total _ Hk) as [k Ek].
    destruct (csi_number_for_name_total _ Hs) as [sk Esk].
    destruct (csi_number_for_name_total _ Ha) as [ak Eak].
    rewrite (encode_key_event_wire e k sk ak Ek Esk Eak). now eexists.
  - unfold encode_key_event. cbv zeta.
    destruct (is_key_name (key e)) eqn:Hk.
    2:{ now rewrite (csi_number_for_name_raises _ Hk). }
    destruct (csi_number_for_name_total _ Hk) as [k Ek]. rewrite Ek.
    cbn [Py.bind].
    destruct (is_key_name (shifted_key e)) eqn:Hs.
    2:{ now rewrite (csi_number_for_name_raises _ Hs). }
    destruct (csi_number_for_name_total _ Hs) as [sk Esk]. rewrite Esk.
    cbn [Py.bind]. cbn [andb] in H.
    now rewrite (csi_number_for_name_raises _ H).
Qed.

Lemma letter_trailers_known :
  forallb (fun kv => existsb (fun c => str_eqb [c] (snd kv)) encoder_trailers)
          get_csi_number_to_letter_trailer_map = true.
Proof. vm_compute. reflexivity. Qed.

Lemma encoder_trailer_known (name : str) (k : Z) :
  exists c, encoder_trailer name k = [c] /\ In c encoder_trailers.
Proof.
  assert (H0 : exists c, encoder_trailer0 name k = [c] /\ In c encoder_trailers).
  { unfold encoder_trailer0, dict_get_or.
    destruct (str_eqb name (lit "ENTER")).
    { exists 117. split; [ reflexivity | now left ]. }
    destruct (dict_get Z.eqb get_csi_number_to_letter_trailer_map k)
      as [ t | ] eqn:E.
    2:{ exists 117. split; [ reflexivity | now left ]. }
    apply dict_get_In in E; [ | exact Zeqb_true ].
    pose proof letter_trailers_known as H.
    rewrite forallb_forall in H. specialize (H _ E). cbn [snd] in H.
    apply existsb_exists in H as (c & Hc & Heq).
    apply str_eqb_eq in Heq. exists c. now split. }
  unfold encoder_trailer.
  destruct (dict_get str_eqb get_name_to_functional_number_map name) as [ fn | ];
    [ | exact H0 ].
  destruct (in_tilde_trailers fn); [ | exact H0 ].
  exists 126. split; [ reflexivity | right; now left ].
Qed.

Lemma functional_csi_numbers_range :
  forallb (fun kv =>
             let k := dict_get_or Z.eqb get_functional_to_csi_number_map
                        (snd kv) (snd kv) in
             (0 <=? k) && (k <=? 1114111))
          get_name_to_functional_number_map = true.
Proof. vm_compute. reflexivity. Qed.

Lemma csi_number_for_name_range (s : str) (k : Z) :
  wf_str s -> csi_number_for_name s = Return k -> 0 <= k <= 1114111.
Proof.
  intros Hwf. unfold csi_number_for_name.
  destruct (negb (truthy_str s)); [ intros [= <-]; lia | ].
  destruct (dict_get str_eqb get_name_to_functional_number_map s)
    as [ fn | ] eqn:E.
  - intros [= <-]. apply dict_get_In in E; [ | exact str_eqb_true ].
    pose proof functional_csi_numbers_range as H.
    rewrite forallb_forall in H. specialize (H _ E). cbn [snd] in H.
    cbv zeta in H. apply andb_true_iff in H as [H1 H2].
    apply Z.leb_le in H1, H2. lia.
  - destruct s as [ | c [ | d r ] ]; cbn [ord]; try discriminate.
    intros [= <-]. exact (Forall_inv Hwf).
Qed.

Lemma wire_mods_range (e : KeyEvent) : 0 <= wire_mods e <= 15.
Proof.
  unfold wire_mods. destruct (shift e), (alt e), (ctrl e), (super e);
    cbn; lia.
Qed.

Lemma payload_text_chars (sections : list (list (option Z))) (c : Z) :
  Forall wf_section sections -> In c (payload_text sections) ->
  c = 58 \/ c = 59 \/ 48 <= c <= 57.
Proof.
  intros Hs H. apply in_join in H as [H | (x & Hx & Hc)].
  - right. left. destruct H as [H | []]. now rewrite <- H.
  - apply in_map_iff in Hx as (l & <- & Hl).
    rewrite Forall_forall in Hs. specialize (Hs _ Hl).
    destruct (section_text_chars _ _ Hs Hc) as [H | H]; [ now left | now right; right ].
Qed.

(** X7: on an event of well-formed strings, what the encoder returns is
    [ESC [], a payload made of decimal digits, colons and semicolons only, and
    one trailer character among [u ~ A B C D F H P Q R S]. *)
Theorem encoded_sequence_shape (e : KeyEvent) (s : str) :
  wf_str (key e) -> wf_str (shifted_key e) -> wf_str (alternate_key e) ->
  wf_str (text e) ->
  encode_key_event e = Return s ->
  exists payload c,
    s = CSI ++ payload ++ [c]
    /\ In c encoder_trailers
    /\ Forall (fun x => x = 58 \/ x = 59 \/ 48 <= x <= 57) payload.
Proof.
  intros Wk Ws Wa Wt He.
  destruct (csi_number_for_name (key e)) as [ k | ex ] eqn:Ek.
  2:{ unfold encode_key_event in He. cbv zeta in He. rewrite Ek in He.
      discriminate. }
  destruct (csi_number_for_name (shifted_key e)) as [ sk | ex ] eqn:Esk.
  2:{ unfold encode_key_event in He. cbv zeta in He. rewrite Ek, Esk in He.
      discriminate. }
  destruct (csi_number_for_name (alternate_key e)) as [ ak | ex ] eqn:Eak.
  2:{ unfold encode_key_event in He. cbv zeta in He. rewrite Ek, Esk, Eak in He.
      discriminate. }
  rewrite (encode_key_event_wire e k sk ak Ek Esk Eak) in He.
  injection He as <-.
  destruct (encoder_trailer_known (key e) k) as (c & Hc & Hin). rewrite Hc.
  exists (payload_text (wire_sections (encoder_keynum (key e) k) sk ak e)), c.
  split; [ reflexivity | split; [ exact Hin | ] ].
  apply Forall_forall. intros x Hx.
  apply (payload_text_chars _ _) in Hx; [ exact Hx | ].
  pose proof (csi_number_for_name_range _ _ Wk Ek) as Hk.
  apply wire_sections_wf.
  - unfold encoder_keynum. destruct (negb _); lia.
  - exact (csi_number_for_name_range _ _ Ws Esk).
  - exact (csi_number_for_name_range _ _ Wa Eak).
  - apply wire_mods_range.
  - exact Wt.
Qed.

(** X8: a key that is one character, neither U+0001 nor a number that has a
    letter trailer, pressed with no mods, no text and no shifted or alternate
    key, is written as [ESC [], the decimal code point and [u], with no
    semicolon. *)
Theorem encode_plain_character (n : Z) :
  n <> 1 ->
  dict_get Z.eqb get_csi_number_to_letter_trailer_map n = None ->
  encode_key_event
    (mkKeyEvent EventType.PRESS 0 [n] [] [] [] false false false false)
  = Return (CSI ++ str_of_int n ++ lit "u").
Proof.
  intros Hn1 Hlt.
  set (e := mkKeyEvent EventType.PRESS 0 [n] [] [] [] false false false false).
  assert (Ek : csi_number_for_name (key e) = Return n).
  { unfold csi_number_for_name. cbn [key e truthy_str negb].
    now rewrite one_char_not_functional. }
  rewrite (encode_key_event_wire e n 0 0 Ek eq_refl eq_refl).
  assert (Et0 : encoder_trailer0 [n] n = lit "u").
  { unfold encoder_trailer0, dict_get_or. now rewrite one_char_not_ENTER, Hlt. }
  cbn [key e].
  assert (Ekn : encoder_keynum [n] n = n).
  { unfold encoder_keynum. now rewrite Et0. }
  assert (Et : encoder_trailer [n] n = lit "u").
  { unfold encoder_trailer. now rewrite one_char_not_functional, Et0. }
  rewrite Ekn, Et. apply Z.eqb_neq in Hn1.
  unfold wire_sections, wire_first, wire_second, wire_third.
  cbn [mods text type wire_action]. rewrite Hn1.
  reflexivity.
Qed.

(** X9: the encoder never writes the integer [mods]; it only tests it for
    zero and takes the mask from the four booleans.  Two events that differ
    only in [mods], both non-zero, are encoded the same. *)
Theorem encode_ignores_mods_value (e : KeyEvent) (m1 m2 : Z) :
  m1 <> 0 -> m2 <> 0 ->
  encode_key_event
    (mkKeyEvent (type e) m1 (key e) (text e) (shifted_key e) (alternate_key e)
       (shift e) (alt e) (ctrl e) (super e))
  = encode_key_event
      (mkKeyEvent (type e) m2 (key e) (text e) (shifted_key e) (alternate_key e)
         (shift e) (alt e) (ctrl e) (super e)).
Proof.
  intros H1 H2. unfold encode_key_event.
  cbn [key shifted_key alternate_key mods text type shift alt ctrl super].
  assert (T1 : truthy m1 = true) by (apply negb_true_iff, Z.eqb_neq; exact H1).
  assert (T2 : truthy m2 = true) by (apply negb_true_iff, Z.eqb_neq; exact H2).
  rewrite T1, T2. reflexivity.
Qed.

(** ** Further properties of the decoder's sections and trailers *)

Lemma split_app_sep_any (sep : Z) (a b : str) :
  split sep (a ++ sep :: b) = split sep a ++ split sep b.
Proof.
  induction a as [ | c r IH ].
  - cbn [app split]. now rewrite Z.eqb_refl.
  - cbn [app split]. destruct (c =? sep).
    + now rewrite IH.
    + rewrite IH. pose proof (split_not_nil sep r) as Hne.
      destruct (split sep r); [ contradiction | reflexivity ].
Qed.

(** X10: the decoder reads three sections and no more: when the payload has
    three sections or more, whatever follows a further semicolon, numeric or
    not, changes nothing. *)
Theorem decode_ignores_later_sections (csi junk csi_type : str) :
  (2 <? Z.of_nat (List.length (split 59 csi))) = true ->
  decode_key_event (csi ++ 59 :: junk) csi_type = decode_key_event csi csi_type.
Proof.
  intros Hlen. rewrite !decode_key_event_build, split_app_sep_any.
  apply Z.ltb_lt in Hlen.
  destruct (split 59 csi) as [ | a [ | b [ | c r ] ] ];
    cbn [List.length] in Hlen; try lia.
  cbn [app getitem nth_error Py.bind].
  replace (1 <? Z.of_nat (List.length (a :: b :: c :: r ++ split 59 junk)))
    with true by (symmetry; apply Z.ltb_lt; cbn [List.length]; lia).
  replace (2 <? Z.of_nat (List.length (a :: b :: c :: r ++ split 59 junk)))
    with true by (symmetry; apply Z.ltb_lt; cbn [List.length]; lia).
  replace (1 <? Z.of_nat (List.length (a :: b :: c :: r)))
    with true by (symmetry; apply Z.ltb_lt; cbn [List.length]; lia).
  replace (2 <? Z.of_nat (List.length (a :: b :: c :: r)))
    with true by (symmetry; apply Z.ltb_lt; cbn [List.length]; lia).
  reflexivity.
Qed.

Lemma letter_trailers_resolve :
  forallb (fun kv =>
             contains (lit "ABCDHFPQRS") (fst kv)
             && result_str_eqb
                  (key_name (fst kv) (snd kv))
                  (match dict_get str_eqb letter_trailer_keys (fst kv) with
                   | Some name => Return name
                   | None => Raise KeyError
                   end))
          letter_trailer_to_csi_number_map = true.
Proof. vm_compute. reflexivity. Qed.

(** X11: a letter trailer decides the key: under the trailer [A], [B], [C],
    [D], [F], [H], [P], [Q], [R] or [S] every event the decoder returns has
    the key UP, DOWN, RIGHT, LEFT, END, HOME, F1, F2, F3 or F4, whatever
    number the payload gives. *)
Theorem letter_trailer_decides_key (csi csi_type : str) (e : KeyEvent) (k : Z) :
  dict_get str_eqb letter_trailer_to_csi_number_map csi_type = Some k ->
  decode_key_event csi csi_type = Return e ->
  dict_get str_eqb letter_trailer_keys csi_type = Some (key e).
Proof.
  intros Hl Hd.
  destruct (decode_key_event_inv _ _ _ Hd)
    as (p0 & first & second & third & keynum & chars
        & _ & _ & _ & _ & Ek & Ekn & _).
  pose proof Hl as Hin. apply dict_get_In in Hin; [ | exact str_eqb_true ].
  pose proof letter_trailers_resolve as H.
  rewrite forallb_forall in H. specialize (H _ Hin). cbn [fst snd] in H.
  apply andb_true_iff in H as [Hc Hr].
  unfold effective_keynum in Ek.
  destruct (getitem first 0); cbn [Py.bind] in Ek; [ | discriminate ].
  rewrite Hc in Ek. unfold dict_item in Ek. rewrite Hl in Ek.
  injection Ek as <-.
  destruct (dict_get str_eqb letter_trailer_keys csi_type) as [ name | ].
  - apply result_str_eqb_true in Hr. rewrite Hr in Ekn. congruence.
  - destruct (key_name csi_type k); discriminate.
Qed.

(** X12: a trailer that is a substring of [ABCDHFPQRS] without being one of
    its letters (the empty trailer, [AB], ...) is never decoded: the lookup
    of the letter raises. *)
Theorem decode_rejects_letter_substrings (csi csi_type : str) (e : KeyEvent) :
  contains (lit "ABCDHFPQRS") csi_type = true ->
  dict_get str_eqb letter_trailer_to_csi_number_map csi_type = None ->
  decode_key_event csi csi_type <> Return e.
Proof.
  intros Hc Hl Hd.
  destruct (decode_key_event_inv _ _ _ Hd)
    as (p0 & first & second & third & keynum & chars
        & _ & _ & _ & _ & Ek & _).
  unfold effective_keynum in Ek.
  destruct (getitem first 0); cbn [Py.bind] in Ek; [ | discriminate ].
  rewrite Hc in Ek. unfold dict_item in Ek. rewrite Hl in Ek. discriminate.
Qed.

(** ** Further properties of the bridge *)

(** X13: on a text that is not empty the bridge returns the absent result
    when the decoder raises on the cut payload and trailer, and otherwise the
    window-system form of the decoded event; that conversion never raises on
    an event of the decoder. *)
Theorem bridge_on_nonempty_text (c : Z) (r : str) :
  (forall ex,
      decode_key_event (slice_2_m1 (c :: r)) [last r c] = Raise ex ->
      decode_key_event_as_window_system_key (c :: r) = Return None)
  /\ (forall k,
         decode_key_event (slice_2_m1 (c :: r)) [last r c] = Return k ->
         exists w,
           as_window_system_event k = Return w
           /\ decode_key_event_as_window_system_key (c :: r) = Return (Some w)).
Proof.
  split.
  - intros ex H. unfold decode_key_event_as_window_system_key.
    cbn [getitem_last Py.bind]. rewrite H. reflexivity.
  - intros k H. destruct (as_window_system_event_decoded _ _ _ H) as [w Hw].
    exists w. split; [ exact Hw | ].
    unfold decode_key_event_as_window_system_key.
    cbn [getitem_last Py.bind]. rewrite H. cbn [Py.bind try_except].
    rewrite Hw. reflexivity.
Qed.

(** X14: the bridge undoes the encoder on every event that round-trips:
    when decoding the encoder's output [s] for [e] gives [e] again, the bridge
    applied to [s] returns the window-system form of [e]. *)
Theorem bridge_of_encoded (e : KeyEvent) (s : str) :
  encode_key_event e = Return s ->
  decode_encoded e = Return e ->
  exists w,
    as_window_system_event e = Return w
    /\ decode_key_event_as_window_system_key s = Return (Some w).
Proof.
  intros He Hrt. unfold decode_encoded in Hrt. rewrite He in Hrt.
  cbn [Py.bind] in Hrt.
  destruct (getitem_last s) as [ t | ] eqn:Et; cbn [Py.bind] in Hrt;
    [ | discriminate ].
  destruct (as_window_system_event_decoded _ _ _ Hrt) as [w Hw].
  exists w. split; [ exact Hw | ].
  unfold decode_key_event_as_window_system_key. rewrite Et. cbn [Py.bind].
  rewrite Hrt. cbn [Py.bind try_except]. rewrite Hw. reflexivity.
Qed.

Lemma functional_names_as_num_value :
  forallb (fun kv => result_Z_eqb (as_num (snd kv)) (Return (fst kv)))
          functional_key_number_to_name_map = true.
Proof. vm_compute. reflexivity. Qed.

Lemma result_Z_eqb_true (a : result Z) (n : Z) :
  result_Z_eqb a (Return n) = true -> a = Return n.
Proof.
  destruct a as [ x | ]; cbn; [ | discriminate ].
  intros H. now apply Z.eqb_eq in H as ->.
Qed.

Lemma key_name_as_num_value (csi_type : str) (num : Z) (s : str) :
  key_name csi_type num = Return s ->
  as_num s = Return (functional_number csi_type num).
Proof.
  unfold key_name, functional_number, truthy.
  destruct (num =? 0); cbn [negb].
  { intros [= <-]. reflexivity. }
  destruct (num =? 13); cbn [negb].
  - destruct (str_eqb csi_type (lit "u")); intros [= <-]; reflexivity.
  - set (num' := dict_get_or Z.eqb csi_number_to_functional_number_map num num).
    destruct (dict_get Z.eqb functional_key_number_to_name_map num')
      as [ ans | ] eqn:E.
    + intros [= <-]. apply dict_get_In in E; [ | exact Zeqb_true ].
      pose proof functional_names_as_num_value as H.
      rewrite forallb_forall in H.
      exact (result_Z_eqb_true _ _ (H _ E)).
    + intros H. apply chr_inv in H as [-> _].
      unfold as_num. cbn [truthy_str].
      now rewrite one_char_not_functional.
Qed.

(** X15: the bridge hands the windowing layer functional numbers, not wire
    numbers: the key number of the converted event is 0 for no key, the
    number of ENTER or F3 for the wire number 13 (by the trailer), and
    otherwise the functional number a legacy CSI number maps to, or the wire
    number itself. *)
Theorem bridge_key_is_functional_number (csi csi_type : str) (e : KeyEvent)
  (n : Z) (w : WindowSystemKeyEvent.t) :
  decode_key_event csi csi_type = Return e ->
  decoded_keynum csi csi_type = Return n ->
  as_window_system_event e = Return w ->
  WindowSystemKeyEvent.key w = functional_number csi_type n.
Proof.
  intros Hd Hn Hw.
  destruct (decode_key_event_inv _ _ _ Hd)
    as (p0 & first & second & third & keynum & chars
        & E0 & E1 & _ & _ & Ek & Ekn & _).
  unfold decoded_keynum in Hn. rewrite E0 in Hn. cbn [Py.bind] in Hn.
  rewrite E1 in Hn. cbn [Py.bind] in Hn.
  rewrite Hn in Ek. injection Ek as <-.
  apply key_name_as_num_value in Ekn.
  unfold as_window_system_event in Hw. rewrite Ekn in Hw. cbn [Py.bind] in Hw.
  destruct (as_num (shifted_key e)); cbn [Py.bind] in Hw; [ | discriminate ].
  destruct (as_num (alternate_key e)); cbn [Py.bind] in Hw; [ | discriminate ].
  injection Hw as <-. reflexivity.
Qed.

(** ** Further properties of the shortcut parser *)

Lemma config_mod_values_range :
  forallb (fun kv => (0 <=? snd kv) && (snd kv <=? 15)) config_mod_map = true.
Proof. vm_compute. reflexivity. Qed.

Lemma lor_range_15 (a b : Z) :
  0 <= a <= 15 -> 0 <= b <= 15 -> 0 <= Z.lor a b <= 15.
Proof.
  intros Ha Hb. split; [ apply Z.lor_nonneg; lia | ].
  destruct (Z.eq_dec a 0) as [ -> | Ha0 ]; [ rewrite Z.lor_0_l; lia | ].
  destruct (Z.eq_dec b 0) as [ -> | Hb0 ]; [ rewrite Z.lor_0_r; lia | ].
  assert (Hl : Z.log2 (Z.lor a b) < 4).
  { rewrite Z.log2_lor by lia.
    assert (Z.log2 a < 4) by (apply Z.log2_lt_pow2; lia).
    assert (Z.log2 b < 4) by (apply Z.log2_lt_pow2; lia).
    lia. }
  assert (Hpos : 0 < Z.lor a b).
  { assert (0 <= Z.lor a b) by (apply Z.lor_nonneg; lia).
    assert (Z.lor a b <> 0) by (rewrite Z.lor_eq_0_iff; lia). lia. }
  apply Z.log2_lt_pow2 in Hl; [ | exact Hpos ].
  change (2 ^ 4) with 16 in Hl. lia.
Qed.

Lemma fold_lor_range_15 (l : list Z) (a : Z) :
  0 <= a <= 15 -> Forall (fun x => 0 <= x <= 15) l ->
  0 <= fold_left Z.lor l a <= 15.
Proof.
  intros Ha Hl. revert a Ha.
  induction Hl as [ | x l Hx Hl IH ]; intros a Ha; cbn [fold_left];
    [ exact Ha | ].
  apply IH. now apply lor_range_15.
Qed.

(** X16: a spec whose modifier tokens are all in the modifier table parses to
    mods within the four modifier bits, between 0 and 15. *)
Theorem known_modifiers_in_range (spec : str) :
  has_unknown_modifier spec = false ->
  0 <= ParsedShortcut.mods (parse_shortcut spec) <= 15.
Proof.
  unfold has_unknown_modifier, parse_shortcut. cbv zeta.
  set (spec' := if endswith spec (lit "+") then _ else _).
  set (parts := split 43 spec'). intros H.
  cbn [ParsedShortcut.mods].
  destruct (1 <? Z.of_nat (List.length parts)); [ | lia ].
  apply fold_lor_range_15; [ lia | ].
  apply Forall_forall. intros v Hv.
  apply in_map_iff in Hv as (x & <- & Hx).
  assert (Hmem : dict_mem str_eqb config_mod_map (upper x) = true).
  { destruct (dict_mem str_eqb config_mod_map (upper x)) eqn:E;
      [ reflexivity | ].
    assert (Hex : existsb
                    (fun x => negb (dict_mem str_eqb config_mod_map (upper x)))
                    (removelast parts) = true).
    { apply existsb_exists. exists x. split; [ exact Hx | now rewrite E ]. }
    congruence. }
  unfold dict_mem, dict_get_or in *.
  destruct (dict_get str_eqb config_mod_map (upper x)) as [ v | ] eqn:E;
    [ | discriminate ].
  apply dict_get_In in E; [ | exact str_eqb_true ].
  pose proof config_mod_values_range as Hr.
  rewrite forallb_forall in Hr. specialize (Hr _ E). cbn [snd] in Hr.
  apply andb_true_iff in Hr as [H1 H2]. apply Z.leb_le in H1, H2. lia.
Qed.

Lemma join_snoc (sep : str) (l : list str) (k : str) :
  join sep (l ++ [k])
  = match l with
    | [] => k
    | _ :: _ => join sep l ++ sep ++ k
    end.
Proof.
  induction l as [ | x r IH ]; [ reflexivity | ].
  destruct r as [ | y r ]; [ reflexivity | ].
  change (join sep ((x :: y :: r) ++ [k]))
    with (x ++ sep ++ join sep ((y :: r) ++ [k])).
  rewrite IH.
  change (join sep (x :: y :: r)) with (x ++ sep ++ join sep (y :: r)).
  now rewrite <- !app_assoc.
Qed.

Lemma endswith_last (s : str) (c d : Z) :
  s <> [] -> last s c <> d -> endswith s [d] = false.
Proof.
  intros Hne Hl. unfold endswith.
  destruct (exists_last Hne) as (r & x & ->).
  rewrite last_last in Hl. rewrite rev_app_distr. cbn.
  apply andb_false_intro1. apply Z.eqb_neq. congruence.
Qed.

Lemma not_in_last (s : str) (c d : Z) : s <> [] -> ~ In d s -> last s c <> d.
Proof.
  intros Hne Hn.
  destruct (exists_last Hne) as (r & x & ->).
  rewrite last_last. intros ->. apply Hn, in_or_app. right. now left.
Qed.

Lemma spec_of_parts (tokens : list str) (key_token : str) :
  Forall (fun x => ~ In 43 x) tokens -> ~ In 43 key_token -> key_token <> [] ->
  endswith (spec_of tokens key_token) (lit "+") = false
  /\ split 43 (spec_of tokens key_token) = tokens ++ [key_token].
Proof.
  intros Ht Hk Hne. split.
  - apply (endswith_last _ 0).
    + unfold spec_of. rewrite join_snoc.
      destruct tokens; [ exact Hne | ].
      intros H. apply app_eq_nil in H as [_ H].
      apply app_eq_nil in H as [H _]. discriminate.
    + unfold spec_of. rewrite join_snoc.
      destruct tokens as [ | t r ]; [ now apply not_in_last | ].
      rewrite !app_assoc.
      destruct (exists_last Hne) as (r' & x & Ek).
      rewrite Ek, app_assoc, last_last.
      intros ->. apply Hk. rewrite Ek. apply in_or_app. right. now left.
  - unfold spec_of. change (lit "+") with [43]. apply split_join.
    + destruct tokens; discriminate.
    + apply Forall_app. split; [ exact Ht | ]. now constructor.
Qed.

Lemma existsb_same_elements {A : Type} (f : A -> bool) (l1 l2 : list A) :
  (forall x, In x l1 <-> In x l2) -> existsb f l1 = existsb f l2.
Proof.
  intros H.
  destruct (existsb f l1) eqn:E1; destruct (existsb f l2) eqn:E2;
    try reflexivity.
  - apply existsb_exists in E1 as (x & Hx & Hf).
    assert (existsb f l2 = true)
      by (apply existsb_exists; exists x; split; [ now apply H | exact Hf ]).
    congruence.
  - apply existsb_exists in E2 as (x & Hx & Hf).
    assert (existsb f l1 = true)
      by (apply existsb_exists; exists x; split; [ now apply H | exact Hf ]).
    congruence.
Qed.

Lemma removelast_snoc {A : Type} (l : list A) (x : A) :
  removelast (l ++ [x]) = l.
Proof. apply removelast_last. Qed.

(** X17: the modifier tokens of a spec count as a set: two specs with the
    same key token whose modifier tokens are the same up to order and
    repetition parse to the same shortcut ([ctrl+shift+a], [shift+ctrl+a] and
    [ctrl+shift+ctrl+a] are one shortcut). *)
Theorem parse_shortcut_modifier_set (tokens1 tokens2 : list str) (key_token : str) :
  Forall (fun x => ~ In 43 x) tokens1 ->
  Forall (fun x => ~ In 43 x) tokens2 ->
  ~ In 43 key_token -> key_token <> [] ->
  (forall x, In x tokens1 <-> In x tokens2) ->
  parse_shortcut (spec_of tokens1 key_token)
  = parse_shortcut (spec_of tokens2 key_token).
Proof.
  intros H1 H2 Hk Hne Hsame.
  destruct (spec_of_parts tokens1 key_token H1 Hk Hne) as [E1 S1].
  destruct (spec_of_parts tokens2 key_token H2 Hk Hne) as [E2 S2].
  unfold parse_shortcut. rewrite E1, E2. cbv zeta. rewrite S1, S2.
  rewrite !last_last, !removelast_snoc.
  f_equal.
  assert (Hfold : forall l1 l2 : list str,
             (forall x, In x l1 <-> In x l2) ->
             fold_left Z.lor
               (map (fun x => dict_get_or str_eqb config_mod_map (upper x)
                                (Z.shiftl SUPER 8)) l1) 0
             = fold_left Z.lor
                 (map (fun x => dict_get_or str_eqb config_mod_map (upper x)
                                  (Z.shiftl SUPER 8)) l2) 0).
  { intros l1 l2 Hs. apply Z.bits_inj'. intros i Hi.
    rewrite !fold_left_lor_testbit. f_equal.
    apply existsb_same_elements. intros v. rewrite !in_map_iff.
    split; intros (x & Hx & Hin); exists x; (split; [ exact Hx | now apply Hs ]). }
  destruct tokens1 as [ | a1 r1 ], tokens2 as [ | a2 r2 ].
  - reflexivity.
  - exfalso. apply (proj2 (Hsame a2)). now left.
  - exfalso. apply (proj1 (Hsame a1)). now left.
  - replace (1 <? Z.of_nat (List.length ((a1 :: r1) ++ [key_token])))
      with true
      by (symmetry; apply Z.ltb_lt; rewrite length_app; cbn [List.length]; lia).
    replace (1 <? Z.of_nat (List.length ((a2 :: r2) ++ [key_token])))
      with true
      by (symmetry; apply Z.ltb_lt; rewrite length_app; cbn [List.length]; lia).
    now apply Hfold.
Qed.

(** ** Trailers that are neither a letter nor [u], and decoding what was
    encoded *)

Lemma key_name_other_trailers (t t' : str) (n : Z) :
  str_eqb t (lit "u") = false -> str_eqb t' (lit "u") = false ->
  key_name t n = key_name t' n.
Proof. intros H H'. unfold key_name. now rewrite H, H'. Qed.

Lemma effective_keynum_other_trailers (first : list Z) (t t' : str) :
  contains (lit "ABCDHFPQRS") t = false ->
  contains (lit "ABCDHFPQRS") t' = false ->
  effective_keynum first t = effective_keynum first t'.
Proof. intros H H'. unfold effective_keynum. now rewrite H, H'. Qed.

Lemma build_event_other_trailers (first second third : list Z) (t t' : str) :
  contains (lit "ABCDHFPQRS") t = false ->
  contains (lit "ABCDHFPQRS") t' = false ->
  str_eqb t (lit "u") = false -> str_eqb t' (lit "u") = false ->
  build_event first second third t = build_event first second third t'.
Proof.
  intros Hc Hc' Hu Hu'. unfold build_event.
  destruct (match second with
            | [] => Return 0
            | _ :: _ => n <- getitem second 0 ;; Return (n - 1)
            end); cbn [Py.bind]; [ | reflexivity ].
  destruct (if 1 <? Z.of_nat (List.length second)
            then getitem second 1 else Return 1); cbn [Py.bind];
    [ | reflexivity ].
  rewrite (effective_keynum_other_trailers first t t' Hc Hc').
  destruct (effective_keynum first t') as [ keynum | ]; cbn [Py.bind];
    [ | reflexivity ].
  rewrite (key_name_other_trailers t t' keynum Hu Hu').
  destruct (key_name t' keynum); cbn [Py.bind]; [ | reflexivity ].
  destruct (if 1 <? Z.of_nat (List.length first)
            then getitem first 1 else Return 0) as [ n1 | ]; cbn [Py.bind];
    [ | reflexivity ].
  rewrite (key_name_other_trailers t t' n1 Hu Hu').
  destruct (key_name t' n1); cbn [Py.bind]; [ | reflexivity ].
  destruct (if 2 <? Z.of_nat (List.length first)
            then getitem first 2 else Return 0) as [ n2 | ]; cbn [Py.bind];
    [ | reflexivity ].
  rewrite (key_name_other_trailers t t' n2 Hu Hu').
  reflexivity.
Qed.

(** X18: the decoder tells three kinds of trailer apart and no more: two
    trailers that are neither a substring of [ABCDHFPQRS] nor [u] give the
    same result, event or exception, on every payload. *)
Theorem decode_other_trailers_alike (csi t t' : str) :
  contains (lit "ABCDHFPQRS") t = false ->
  contains (lit "ABCDHFPQRS") t' = false ->
  str_eqb t (lit "u") = false -> str_eqb t' (lit "u") = false ->
  decode_key_event csi t = decode_key_event csi t'.
Proof.
  intros Hc Hc' Hu Hu'. rewrite !decode_key_event_build.
  destruct (getitem (split 59 csi) 0); cbn [Py.bind]; [ | reflexivity ].
  destruct (get_sub_sections a 0); cbn [Py.bind]; [ | reflexivity ].
  destruct (if 1 <? Z.of_nat (List.length (split 59 csi))
            then p1 <- getitem (split 59 csi) 1 ;; get_sub_sections p1 1
            else Return []); cbn [Py.bind]; [ | reflexivity ].
  destruct (if 2 <? Z.of_nat (List.length (split 59 csi))
            then p2 <- getitem (split 59 csi) 2 ;; get_sub_sections p2 0
            else Return []); cbn [Py.bind]; [ | reflexivity ].
  now apply build_event_other_trailers.
Qed.

Lemma key_name_total (t : str) (n : Z) :
  0 <= n <= 1114111 -> exists s, key_name t n = Return s.
Proof.
  intros Hn. unfold key_name.
  destruct (negb (truthy n)); [ now eexists | ].
  destruct (negb (n =? 13)); [ | now eexists ].
  set (n' := dict_get_or Z.eqb csi_number_to_functional_number_map n n).
  destruct (dict_get Z.eqb functional_key_number_to_name_map n')
    as [ ans | ] eqn:E; [ now eexists | ].
  assert (Hn' : n' = n).
  { subst n'. unfold dict_get_or in *.
    destruct (dict_get Z.eqb csi_number_to_functional_number_map n)
      as [ v | ] eqn:Ec; [ | reflexivity ].
    apply dict_get_In in Ec; [ | exact Zeqb_true ].
    pose proof csi_targets_functional as H.
    rewrite forallb_forall in H. specialize (H _ Ec).
    unfold dict_mem in H. cbn [snd] in H. rewrite E in H. discriminate. }
  rewrite Hn'. exists [n]. now apply chr_in_range.
Qed.

Lemma encoder_trailers_resolve (c first0 : Z) :
  0 <= first0 <= 1114111 ->
  In c encoder_trailers ->
  exists keynum, effective_keynum [first0] [c] = Return keynum
                 /\ 0 <= keynum <= 1114111.
Proof.
  intros Hf Hin. unfold encoder_trailers in Hin. cbn in Hin.
  repeat (destruct Hin as [ <- | Hin ];
          [ eexists; split; [ reflexivity | lia ] | ]).
  contradiction.
Qed.

(** The decoder's reading of the second and third sections the encoder
    writes, for any event. *)
Lemma wire_rest_readable (e : KeyEvent) :
  let rest := wire_second e ++ wire_third e in
  let sec2 := match rest with s1 :: _ => values 1 s1 | [] => [] end in
  let sec3 := match rest with _ :: s2 :: _ => values 0 s2 | _ => [] end in
  exists m,
    (match sec2 with
     | [] => Return 0
     | _ :: _ => n <- getitem sec2 0 ;; Return (n - 1)
     end) = Return m
    /\ 0 <= m <= 15
    /\ (if 1 <? Z.of_nat (List.length sec2) then getitem sec2 1 else Return 1)
       = Return (wire_action e)
    /\ sec3 = text e.
Proof.
  pose proof (wire_mods_range e) as Hr.
  unfold wire_second, wire_third, wire_action.
  assert (Hnil : truthy_str (text e) = false -> [] = text e).
  { destruct (text e); [ reflexivity | discriminate ]. }
  destruct (truthy (mods e)), (type e), (truthy_str (text e)),
    (truthy (wire_mods e));
    cbn -[Z.add Z.sub values]; rewrite ?values_map_Some;
    cbn -[Z.add Z.sub];
    eexists; (split; [ reflexivity | ]);
    (split; [ lia | ]);
    (split; [ reflexivity | ]);
    first [ reflexivity | now apply Hnil ].
Qed.

(** X19: what the encoder writes can always be read back: for an event of
    well-formed strings that the encoder accepts, the decoder returns an
    event from the encoder's output, of the same type and text and with mods
    within the four modifier bits. *)
Theorem encoded_is_decodable (e : KeyEvent) (s : str) :
  wf_str (key e) -> wf_str (shifted_key e) -> wf_str (alternate_key e) ->
  wf_str (text e) ->
  encode_key_event e = Return s ->
  exists e',
    decode_encoded e = Return e'
    /\ type e' = type e
    /\ text e' = text e
    /\ 0 <= mods e' <= 15.
Proof.
  intros Wk Ws Wa Wt He.
  destruct (csi_number_for_name (key e)) as [ k | ex ] eqn:Ek.
  2:{ unfold encode_key_event in He. cbv zeta in He. rewrite Ek in He.
      discriminate. }
  destruct (csi_number_for_name (shifted_key e)) as [ sk | ex ] eqn:Esk.
  2:{ unfold encode_key_event in He. cbv zeta in He. rewrite Ek, Esk in He.
      discriminate. }
  destruct (csi_number_for_name (alternate_key e)) as [ ak | ex ] eqn:Eak.
  2:{ unfold encode_key_event in He. cbv zeta in He. rewrite Ek, Esk, Eak in He.
      discriminate. }
  clear He s.
  pose proof (encode_key_event_wire e k sk ak Ek Esk Eak) as Henc.
  destruct (encoder_trailer_known (key e) k) as (c & Hc & Hin).
  rewrite Hc in Henc. set (k' := encoder_keynum (key e) k) in *.
  pose proof (csi_number_for_name_range _ _ Wk Ek) as Hk.
  pose proof (csi_number_for_name_range _ _ Ws Esk) as Hsk.
  pose proof (csi_number_for_name_range _ _ Wa Eak) as Hak.
  assert (Hk' : 0 <= k' <= 1114111).
  { subst k'. unfold encoder_keynum. destruct (negb _); lia. }
  unfold decode_encoded. rewrite Henc. cbn [Py.bind].
  rewrite getitem_last_framed, slice_2_m1_framed. cbn [Py.bind].
  unfold wire_sections. rewrite decode_payload_text.
  2:{ apply wire_sections_wf; try assumption. apply wire_mods_range. }
  destruct (wire_rest_readable e) as (m & R1 & Hm & R2 & R3).
  cbv zeta in R1, R2, R3.
  destruct (wire_first_decoded k' sk ak e [c]) as (F1 & F2 & F3).
  cbv zeta in F1, F2, F3.
  destruct (mapM_chr_in_range _ Wt) as (chars' & Hch' & Hcat').
  destruct (encoder_trailers_resolve c
              (if negb (k' =? 1) || truthy (mods e) || truthy sk || truthy ak
                  || truthy_str (text e) then k' else 0))
    as (keynum & Hkn & Hkr); [ destruct (_ || _); lia | exact Hin | ].
  rewrite <- F3 in Hkn.
  destruct (key_name_total [c] keynum Hkr) as [kn Ekn].
  destruct (key_name_total [c] sk Hsk) as [skn Eskn].
  destruct (key_name_total [c] ak Hak) as [akn Eakn].
  assert (Hty : action_type (wire_action e) = Return (type e)).
  { unfold wire_action. destruct (type e); reflexivity. }
  rewrite R3 in *.
  rewrite (build_event_intro _ _ _ _ _ _ _ _ _ _ _ _ _ _
             R1 R2 Hkn Ekn F1 Eskn F2 Eakn Hty Hch').
  eexists. split; [ reflexivity | ].
  cbn [type text mods]. now rewrite Hcat'.
Qed.

(** ** What the decoder refuses *)

Lemma mapM_Return_In {A B : Type} (f : A -> result B) (l : list A)
  (ys : list B) (x : A) :
  mapM f l = Return ys -> In x l -> exists y, f x = Return y.
Proof.
  revert ys. induction l as [ | a l IH ]; intros ys H Hin; [ destruct Hin | ].
  cbn [mapM] in H.
  destruct (f a) as [ b | ] eqn:Ea; cbn [Py.bind] in H; [ | discriminate ].
  destruct (mapM f l) as [ bs | ] eqn:El; cbn [Py.bind] in H; [ | discriminate ].
  destruct Hin as [ <- | Hin ]; [ now exists b | ].
  now apply (IH bs).
Qed.

Lemma get_sub_sections_subfield (p : str) (missing : Z) (l : list Z) (y : str) :
  get_sub_sections p missing = Return l ->
  In y (split 58 p) -> y <> [] -> exists n, int y = Return n.
Proof.
  unfold get_sub_sections. intros H Hin Hne.
  destruct (mapM_Return_In _ _ _ _ H Hin) as [n Hn].
  destruct y; [ contradiction | ]. cbn [truthy_str] in Hn. now exists n.
Qed.

(** X20: a subfield that is not empty and not an integer literal, anywhere in
    the first three sections, makes the decoder raise: no event is returned. *)
Theorem decode_rejects_malformed_subfield (csi csi_type : str) (i : nat)
  (p y : str) (ex : exn) (e : KeyEvent) :
  (i < 3)%nat ->
  nth_error (split 59 csi) i = Some p ->
  In y (split 58 p) ->
  y <> [] ->
  int y = Raise ex ->
  decode_key_event csi csi_type <> Return e.
Proof.
  intros Hi Hp Hy Hne Hint Hd.
  destruct (decode_key_event_inv _ _ _ Hd)
    as (p0 & first & second & third & keynum & chars
        & E0 & E1 & E2 & E3 & _).
  assert (Hlen : (i < List.length (split 59 csi))%nat).
  { apply nth_error_Some. congruence. }
  assert (Hgss : exists missing l, get_sub_sections p missing = Return l).
  { destruct i as [ | [ | [ | i ] ] ]; [ | | | lia ].
    - unfold getitem in E0. rewrite Hp in E0. injection E0 as <-.
      now exists 0, first.
    - replace (1 <? Z.of_nat (List.length (split 59 csi))) with true in E2
        by (symmetry; apply Z.ltb_lt; lia).
      unfold getitem in E2. rewrite Hp in E2. cbn [Py.bind] in E2.
      now exists 1, second.
    - replace (2 <? Z.of_nat (List.length (split 59 csi))) with true in E3
        by (symmetry; apply Z.ltb_lt; lia).
      unfold getitem in E3. rewrite Hp in E3. cbn [Py.bind] in E3.
      now exists 0, third. }
  destruct Hgss as (missing & l & Hg).
  destruct (get_sub_sections_subfield _ _ _ _ Hg Hy Hne) as [n Hn].
  congruence.
Qed.

Lemma table_numbers_range :
  forallb (fun kv => (0 <=? fst kv) && (fst kv <=? 1114111))
          csi_number_to_functional_number_map = true
  /\ forallb (fun kv => (0 <=? fst kv) && (fst kv <=? 1114111))
             functional_key_number_to_name_map = true.
Proof. split; vm_compute; reflexivity. Qed.

Lemma key_name_number_range (t : str) (n : Z) (s : str) :
  key_name t n = Return s -> 0 <= n <= 1114111.
Proof.
  unfold key_name, truthy.
  destruct (n =? 0) eqn:E0; cbn [negb]; [ apply Z.eqb_eq in E0; lia | ].
  destruct (n =? 13) eqn:E13; cbn [negb]; [ apply Z.eqb_eq in E13; lia | ].
  destruct table_numbers_range as [Hc Hf]. rewrite forallb_forall in Hc, Hf.
  unfold dict_get_or.
  destruct (dict_get Z.eqb csi_number_to_functional_number_map n)
    as [ v | ] eqn:Ec.
  - intros _. apply dict_get_In in Ec; [ | exact Zeqb_true ].
    specialize (Hc _ Ec). cbn [fst] in Hc.
    apply andb_true_iff in Hc as [H1 H2]. apply Z.leb_le in H1, H2. lia.
  - destruct (dict_get Z.eqb functional_key_number_to_name_map n)
      as [ ans | ] eqn:Ef.
    + intros _. apply dict_get_In in Ef; [ | exact Zeqb_true ].
      specialize (Hf _ Ef). cbn [fst] in Hf.
      apply andb_true_iff in Hf as [H1 H2]. apply Z.leb_le in H1, H2. lia.
    + intros H. now apply chr_inv in H as [_ H].
Qed.

(** X21: the numbers of a decoded event are code points: when the decoder
    returns, the key number it resolved lies in [range(0x110000)]; a negative
    or larger key number makes it raise. *)
Theorem decoded_keynum_range (csi csi_type : str) (e : KeyEvent) (n : Z) :
  decode_key_event csi csi_type = Return e ->
  decoded_keynum csi csi_type = Return n ->
  0 <= n <= 1114111.
Proof.
  intros Hd Hn.
  destruct (decode_key_event_inv _ _ _ Hd)
    as (p0 & first & second & third & keynum & chars
        & E0 & E1 & _ & _ & Ek & Ekn & _).
  unfold decoded_keynum in Hn. rewrite E0 in Hn. cbn [Py.bind] in Hn.
  rewrite E1 in Hn. cbn [Py.bind] in Hn.
  rewrite Hn in Ek. injection Ek as <-.
  exact (key_name_number_range _ _ _ Ekn).
Qed.

End KeyEncoding.


(** ** The properties at concrete inputs *)

(** C1, at the event decoded from [97:65;2:3;66 u]. *)
Lemma decode_encode_round_trip_witness :
  decode_key_event ascii_isspace ascii_decimal default_max_str_digits
      (lit "97:65;2:3;66") (lit "u")
  = Return shift_a_release
  /\ encode_key_event shift_a_release = Return (CSI ++ lit "97:65;2:3;66u")
  /\ decode_encoded ascii_isspace ascii_decimal default_max_str_digits
      shift_a_release
     = Return shift_a_release.
Proof.
  split; [ reflexivity | split; [ reflexivity | ] ].
  apply (decode_encode_round_trip ascii_isspace ascii_decimal
           default_max_str_digits
           (lit "97:65;2:3;66") (lit "u") shift_a_release).
  - reflexivity.
  - split; discriminate.
  - intros H. discriminate H.
  - intros [H | H]; discriminate H.
Defined.

(** C1 as stated fails: [1 u] decodes to the key U+0001, which the encoder
    writes as [ESC [ u], and that decodes to the empty key. *)
Lemma round_trip_loses_key_1 :
  exists e e',
    (forall isspace decimal cap,
        decode_key_event isspace decimal cap (lit "1") (lit "u")
        = Return e)
    /\ encode_key_event e = Return (CSI ++ lit "u")
    /\ (forall isspace decimal cap, decode_encoded isspace decimal cap e = Return e')
    /\ e' <> e.
Proof.
  exists ctrl_a_char, KeyEvent_default.
  repeat split; try reflexivity. discriminate.
Qed.

(** The round trip also loses mods outside the four bits: [97;17 u] decodes
    to mods 16, which the encoder does not write. *)
Lemma round_trip_loses_high_mods :
  exists e e',
    (forall isspace decimal cap,
        decode_key_event isspace decimal cap (lit "97;17") (lit "u")
        = Return e)
    /\ encode_key_event e = Return (CSI ++ lit "97u")
    /\ (forall isspace decimal cap, decode_encoded isspace decimal cap e = Return e')
    /\ mods e = 16 /\ mods e' = 0.
Proof.
  exists (mkKeyEvent EventType.PRESS 16 (lit "a") [] [] []
            false false false false),
    (mkKeyEvent EventType.PRESS 0 (lit "a") [] [] [] false false false false).
  repeat split; reflexivity.
Qed.

(** And it loses [ENTER] as a shifted key under a trailer other than [u]:
    [2:57345 ~] decodes to INSERT with shifted key [ENTER], written back as
    [2:13 ~], whose shifted key decodes to [F3]. *)
Lemma round_trip_loses_shifted_ENTER :
  exists e e',
    (forall isspace decimal cap,
        decode_key_event isspace decimal cap (lit "2:57345") (lit "~")
        = Return e)
    /\ encode_key_event e = Return (CSI ++ lit "2:13~")
    /\ (forall isspace decimal cap, decode_encoded isspace decimal cap e = Return e')
    /\ shifted_key e = lit "ENTER" /\ shifted_key e' = lit "F3".
Proof.
  exists (mkKeyEvent EventType.PRESS 0 (lit "INSERT") [] (lit "ENTER") []
            false false false false),
    (mkKeyEvent EventType.PRESS 0 (lit "INSERT") [] (lit "F3") []
       false false false false).
  repeat split; reflexivity.
Qed.

(** C2 as stated fails: the output for F1 is not [ESC [ 1 P]. *)
Lemma encode_F1_is_not_1P :
  encode_key_event
    (mkKeyEvent EventType.PRESS 0 (lit "F1") [] [] [] false false false false)
  <> Return (CSI ++ lit "1P").
Proof. vm_compute. discriminate. Qed.

(** C3 as stated fails: the text decoded from [97;;:65] is not [A]. *)
Lemma decode_text_section_is_not_A :
  exists e,
    (forall isspace decimal cap,
        decode_key_event isspace decimal cap (lit "97;;:65") (lit "u")
        = Return e)
    /\ text e <> lit "A".
Proof.
  exists (mkKeyEvent EventType.PRESS 0 (lit "a") [0; 65] [] []
            false false false false).
  split; [ reflexivity | discriminate ].
Qed.

(** C4, at the payload [13] with the trailer [~]. *)
Lemma csi_13_disambiguation_witness :
  decode_key_event ascii_isspace ascii_decimal default_max_str_digits
      (lit "13") (lit "~")
  = Return F3_key
  /\ decoded_keynum ascii_isspace ascii_decimal default_max_str_digits
      (lit "13") (lit "~") = Return 13
  /\ key F3_key = lit "F3".
Proof.
  split; [ reflexivity | split; [ reflexivity | ] ].
  exact (proj1 (proj1 (csi_13_disambiguation ascii_isspace ascii_decimal default_max_str_digits)
                  (lit "13") (lit "~") F3_key eq_refl eq_refl)).
Defined.

(** C5, at ctrl+shift+DELETE released, with text and a shifted key. *)
Lemma tilde_precedence_witness :
  dict_get str_eqb get_name_to_functional_number_map (key ctrl_shift_delete)
  = Some 57349
  /\ in_tilde_trailers 57349 = true
  /\ exists payload,
      encode_key_event ctrl_shift_delete = Return (CSI ++ payload ++ lit "~").
Proof.
  split; [ reflexivity | split; [ reflexivity | ] ].
  exact (proj1 tilde_precedence ctrl_shift_delete 57349
           eq_refl eq_refl eq_refl eq_refl).
Defined.

(** C6, at shift+3 with the example alias tables. *)
Lemma shift_alias_matching_witness :
  matches ascii_upper example_functional_key_name_aliases
    example_character_key_name_aliases shift_3 (inl (lit "#")) default_types
  = true
  /\ matches ascii_upper example_functional_key_name_aliases
       example_character_key_name_aliases shift_3 (inl (lit "shift+3"))
       default_types
     = false.
Proof.
  exact (shift_alias_matching ascii_upper example_functional_key_name_aliases
           example_character_key_name_aliases shift_3
           eq_refl eq_refl eq_refl eq_refl eq_refl eq_refl eq_refl).
Defined.

(** C7, at the spec [alt+shift++]. *)
Lemma parse_shortcut_trailing_plus_witness :
  parse_shortcut ascii_upper example_functional_key_name_aliases
    example_character_key_name_aliases (lit "alt+shift++")
  = parse_shortcut ascii_upper example_functional_key_name_aliases
      example_character_key_name_aliases (lit "alt+shift+plus").
Proof.
  exact (proj1 (parse_shortcut_trailing_plus ascii_upper
                  example_functional_key_name_aliases
                  example_character_key_name_aliases)
           (lit "alt+shift++") eq_refl).
Defined.

(** C9, at the spec [hyper+a] and the event ctrl+a. *)
Lemma unknown_modifier_never_matches_witness :
  Z.land
    (ParsedShortcut.mods
       (parse_shortcut ascii_upper example_functional_key_name_aliases
          example_character_key_name_aliases (lit "hyper+a")))
    (Z.shiftl SUPER 8)
  = Z.shiftl SUPER 8
  /\ matches ascii_upper example_functional_key_name_aliases
       example_character_key_name_aliases
       (mkKeyEvent EventType.PRESS CTRL (lit "a") [] [] []
          false false true false)
       (inl (lit "hyper+a")) default_types
     = false.
Proof.
  exact (unknown_modifier_never_matches ascii_upper
           example_functional_key_name_aliases
           example_character_key_name_aliases (lit "hyper+a")
           (mkKeyEvent EventType.PRESS CTRL (lit "a") [] [] []
              false false true false)
           default_types eq_refl eq_refl).
Defined.

(** C9 as stated fails: the event decoded from [97;2049 u] has the bit
    [SUPER << 8] in its mods and matches the spec [hyper+a], whose modifier
    is unknown, as long as the alias tables do not rename [A]. *)
Lemma unknown_modifier_spec_matches_decoded_event :
  exists e,
    (forall isspace decimal cap,
        decode_key_event isspace decimal cap (lit "97;2049") (lit "u")
        = Return e)
    /\ forall upper_data functional_aliases character_aliases,
        dict_get str_eqb functional_aliases (lit "A") = None ->
        dict_get str_eqb character_aliases (lit "A") = None ->
        has_unknown_modifier upper_data (lit "hyper+a") = true
        /\ matches upper_data functional_aliases character_aliases e
             (inl (lit "hyper+a")) default_types
           = true.
Proof.
  exists a_with_sentinel. split; [ reflexivity | ].
  intros upper_data fa ca Hf Hc. split; [ reflexivity | ].
  assert (Ef : dict_get_or str_eqb fa (lit "A") (lit "a") = lit "a")
    by (unfold dict_get_or; now rewrite Hf).
  assert (Ec : dict_get_or str_eqb ca (lit "A") (lit "a") = lit "a")
    by (unfold dict_get_or; now rewrite Hc).
  unfold matches. cbn [type a_with_sentinel EventType.value].
  change (negb (truthy (Z.land 1 default_types))) with false. cbv iota.
  cbn [shifted_key truthy_str andb mods key].
  unfold parse_shortcut.
  change (endswith (lit "hyper+a") (lit "+")) with false. cbv iota zeta.
  change (split 43 (lit "hyper+a")) with [lit "hyper"; lit "a"].
  change (last [lit "hyper"; lit "a"] []) with (lit "a").
  change (Py.upper upper_data (lit "a")) with (lit "A").
  rewrite Ef.
  change (Py.upper upper_data (lit "a")) with (lit "A").
  replace (dict_mem str_eqb get_name_to_functional_number_map (lit "A"))
    with false by (vm_compute; reflexivity).
  rewrite Ec.
  reflexivity.
Qed.

(** C10, at the payload [97;2049]. *)
Lemma decode_mods_unmasked_witness :
  decode_key_event ascii_isspace ascii_decimal default_max_str_digits
      (lit "97;2049") (lit "u")
  = Return a_with_sentinel
  /\ mods a_with_sentinel = 2049 - 1.
Proof.
  split; [ reflexivity | ].
  exact (proj1 (decode_mods_unmasked ascii_isspace ascii_decimal default_max_str_digits)
           (lit "97;2049") (lit "u") a_with_sentinel (lit "2049") (lit "2049")
           2049 eq_refl eq_refl eq_refl eq_refl).
Defined.


(** ** The further properties at concrete inputs *)

(** X2, at the payload [97;6]. *)
Lemma decoded_booleans_mirror_mods_witness :
  decode_key_event ascii_isspace ascii_decimal default_max_str_digits
      (lit "97;6") (lit "u")
  = Return ctrl_shift_a
  /\ (shift ctrl_shift_a = Z.testbit (mods ctrl_shift_a) 0
      /\ alt ctrl_shift_a = Z.testbit (mods ctrl_shift_a) 1
      /\ ctrl ctrl_shift_a = Z.testbit (mods ctrl_shift_a) 2
      /\ super ctrl_shift_a = Z.testbit (mods ctrl_shift_a) 3).
Proof.
  split; [ reflexivity | ].
  exact (decoded_booleans_mirror_mods ascii_isspace ascii_decimal
           default_max_str_digits (lit "97;6") (lit "u") ctrl_shift_a eq_refl).
Defined.

(** X3, at the payload [97:65;2:3;66]. *)
Lemma decoded_names_canonical_witness :
  is_key_name (key shift_a_release) = true
  /\ is_key_name (shifted_key shift_a_release) = true
  /\ is_key_name (alternate_key shift_a_release) = true
  /\ Forall (fun c => 0 <= c <= 1114111) (text shift_a_release).
Proof.
  exact (decoded_names_canonical ascii_isspace ascii_decimal
           default_max_str_digits (lit "97:65;2:3;66") (lit "u")
           shift_a_release eq_refl).
Defined.

(** X4, at the legacy number 27 under the trailer [~]. *)
Lemma key_name_number_round_trip_witness :
  key_name (lit "~") 27 = Return (lit "ESCAPE")
  /\ exists k, csi_number_for_name (lit "ESCAPE") = Return k
               /\ key_name (lit "u") k = Return (lit "ESCAPE").
Proof.
  split; [ reflexivity | ].
  exact (key_name_number_round_trip (lit "~") 27 (lit "ESCAPE") eq_refl).
Defined.

(** X5, at the payload [97:65;2:3;66], whose action is 3. *)
Lemma decoded_type_of_action_witness :
  (lit "3" = [] -> type shift_a_release = EventType.PRESS)
  /\ (forall a,
         Py.int ascii_isspace ascii_decimal default_max_str_digits (lit "3")
         = Return a ->
         (a = 1 /\ type shift_a_release = EventType.PRESS)
         \/ (a = 2 /\ type shift_a_release = EventType.REPEAT)
         \/ (a = 3 /\ type shift_a_release = EventType.RELEASE)).
Proof.
  exact (decoded_type_of_action ascii_isspace ascii_decimal
           default_max_str_digits (lit "97:65;2:3;66") (lit "u")
           shift_a_release (lit "2:3") (lit "3") eq_refl eq_refl eq_refl).
Defined.

(** X6, at ctrl+shift+a, which is encoded, and at an event whose shifted key
    is the two characters [ab], which is refused. *)
Lemma encode_returns_iff_key_names_witness :
  (exists s, encode_key_event ctrl_shift_a = Return s)
  /\ encode_key_event
       (mkKeyEvent EventType.PRESS 0 (lit "a") [] (lit "ab") []
          false false false false)
     = Raise TypeError.
Proof.
  split.
  - exact (proj1 (encode_returns_iff_key_names ctrl_shift_a) eq_refl).
  - exact (proj2 (encode_returns_iff_key_names
                    (mkKeyEvent EventType.PRESS 0 (lit "a") [] (lit "ab") []
                       false false false false)) eq_refl).
Defined.

Lemma wf_str_lit_a : wf_str (lit "a").
Proof. repeat constructor; discriminate. Defined.

Lemma wf_str_lit_A : wf_str (lit "A").
Proof. repeat constructor; discriminate. Defined.

Lemma wf_str_lit_B : wf_str (lit "B").
Proof. repeat constructor; discriminate. Defined.

Lemma wf_str_empty : wf_str [].
Proof. constructor. Defined.

(** X7, at shift+release of [a]. *)
Lemma encoded_sequence_shape_witness :
  encode_key_event shift_a_release = Return (CSI ++ lit "97:65;2:3;66u")
  /\ exists payload c,
      CSI ++ lit "97:65;2:3;66u" = CSI ++ payload ++ [c]
      /\ In c encoder_trailers
      /\ Forall (fun x => x = 58 \/ x = 59 \/ 48 <= x <= 57) payload.
Proof.
  split; [ reflexivity | ].
  exact (encoded_sequence_shape shift_a_release (CSI ++ lit "97:65;2:3;66u")
           wf_str_lit_a wf_str_lit_A wf_str_empty wf_str_lit_B eq_refl).
Defined.

(** X8, at the key [A]: [ESC [ 65 u]. *)
Lemma encode_plain_character_witness :
  encode_key_event plain_A = Return (CSI ++ str_of_int 65 ++ lit "u")
  /\ str_of_int 65 = lit "65".
Proof.
  split; [ | reflexivity ].
  refine (encode_plain_character 65 _ eq_refl). discriminate.
Defined.

(** X9, at ctrl+shift+a with mods 5 and with mods 99. *)
Lemma encode_ignores_mods_value_witness :
  encode_key_event ctrl_shift_a
  = encode_key_event
      (mkKeyEvent EventType.PRESS 99 (lit "a") [] [] [] true false true false).
Proof.
  refine (encode_ignores_mods_value ctrl_shift_a 5 99 _ _); discriminate.
Defined.

(** X10, at the payload [97;2;66] followed by [;junk]. *)
Lemma decode_ignores_later_sections_witness :
  decode_key_event ascii_isspace ascii_decimal default_max_str_digits
      (lit "97;2;66" ++ 59 :: lit "junk") (lit "u")
  = decode_key_event ascii_isspace ascii_decimal default_max_str_digits
      (lit "97;2;66") (lit "u").
Proof.
  exact (decode_ignores_later_sections ascii_isspace ascii_decimal
           default_max_str_digits (lit "97;2;66") (lit "junk") (lit "u")
           eq_refl).
Defined.

(** X11, at the payload [5] with the trailer [A]. *)
Lemma letter_trailer_decides_key_witness :
  decode_key_event ascii_isspace ascii_decimal default_max_str_digits
      (lit "5") (lit "A")
  = Return UP_key
  /\ dict_get str_eqb letter_trailer_keys (lit "A") = Some (key UP_key).
Proof.
  split; [ reflexivity | ].
  exact (letter_trailer_decides_key ascii_isspace ascii_decimal
           default_max_str_digits (lit "5") (lit "A") UP_key 57352
           eq_refl eq_refl).
Defined.

(** X12, at the trailer [AB]. *)
Lemma decode_rejects_letter_substrings_witness :
  decode_key_event ascii_isspace ascii_decimal default_max_str_digits
      (lit "1") (lit "AB")
  <> Return UP_key.
Proof.
  exact (decode_rejects_letter_substrings ascii_isspace ascii_decimal
           default_max_str_digits (lit "1") (lit "AB") UP_key
           eq_refl eq_refl).
Defined.

(** X13, at the text [ESC [ 9 7 ; x u], on which the decoder raises. *)
Lemma bridge_on_nonempty_text_witness :
  decode_key_event_as_window_system_key ascii_isspace ascii_decimal
    default_max_str_digits example_GLFW_PRESS example_GLFW_REPEAT
    example_GLFW_RELEASE example_GLFW_MOD_SHIFT example_GLFW_MOD_ALT
    example_GLFW_MOD_CONTROL example_GLFW_MOD_SUPER (CSI ++ lit "97;xu")
  = Return None.
Proof.
  exact (proj1 (bridge_on_nonempty_text ascii_isspace ascii_decimal
                  default_max_str_digits example_GLFW_PRESS example_GLFW_REPEAT
                  example_GLFW_RELEASE example_GLFW_MOD_SHIFT
                  example_GLFW_MOD_ALT example_GLFW_MOD_CONTROL
                  example_GLFW_MOD_SUPER 27 (91 :: lit "97;xu"))
           ValueError eq_refl).
Defined.

(** X14, at shift+release of [a]. *)
Lemma bridge_of_encoded_witness :
  exists w,
    as_window_system_event example_GLFW_PRESS example_GLFW_REPEAT
      example_GLFW_RELEASE example_GLFW_MOD_SHIFT example_GLFW_MOD_ALT
      example_GLFW_MOD_CONTROL example_GLFW_MOD_SUPER shift_a_release
    = Return w
    /\ decode_key_event_as_window_system_key ascii_isspace ascii_decimal
         default_max_str_digits example_GLFW_PRESS example_GLFW_REPEAT
         example_GLFW_RELEASE example_GLFW_MOD_SHIFT example_GLFW_MOD_ALT
         example_GLFW_MOD_CONTROL example_GLFW_MOD_SUPER
         (CSI ++ lit "97:65;2:3;66u")
       = Return (Some w).
Proof.
  exact (bridge_of_encoded ascii_isspace ascii_decimal default_max_str_digits
           example_GLFW_PRESS example_GLFW_REPEAT example_GLFW_RELEASE
           example_GLFW_MOD_SHIFT example_GLFW_MOD_ALT example_GLFW_MOD_CONTROL
           example_GLFW_MOD_SUPER shift_a_release (CSI ++ lit "97:65;2:3;66u")
           eq_refl eq_refl).
Defined.

(** X15, at the legacy sequence [27 u]: the key number is 57344. *)
Lemma bridge_key_is_functional_number_witness :
  WindowSystemKeyEvent.key
    (WindowSystemKeyEvent.mk 57344 0 0 0 example_GLFW_PRESS [])
  = functional_number (lit "u") 27
  /\ functional_number (lit "u") 27 = 57344.
Proof.
  split; [ | reflexivity ].
  exact (bridge_key_is_functional_number ascii_isspace ascii_decimal
           default_max_str_digits example_GLFW_PRESS example_GLFW_REPEAT
           example_GLFW_RELEASE example_GLFW_MOD_SHIFT example_GLFW_MOD_ALT
           example_GLFW_MOD_CONTROL example_GLFW_MOD_SUPER
           (lit "27") (lit "u") ESCAPE_key 27
           (WindowSystemKeyEvent.mk 57344 0 0 0 example_GLFW_PRESS [])
           eq_refl eq_refl eq_refl).
Defined.

(** X16, at the spec [ctrl+option+cmd+x]. *)
Lemma known_modifiers_in_range_witness :
  0 <= ParsedShortcut.mods
         (parse_shortcut ascii_upper example_functional_key_name_aliases
            example_character_key_name_aliases (lit "ctrl+option+cmd+x"))
    <= 15.
Proof.
  exact (known_modifiers_in_range ascii_upper
           example_functional_key_name_aliases
           example_character_key_name_aliases (lit "ctrl+option+cmd+x")
           eq_refl).
Defined.

Lemma no_plus_ctrl : ~ In 43 (lit "ctrl").
Proof. cbn. intros [H | [H | [H | [H | []]]]]; discriminate H. Defined.

Lemma no_plus_shift : ~ In 43 (lit "shift").
Proof. cbn. intros [H | [H | [H | [H | [H | []]]]]]; discriminate H. Defined.

Lemma no_plus_a : ~ In 43 (lit "a").
Proof. cbn. intros [H | []]; discriminate H. Defined.

Lemma same_tokens_ctrl_shift (x : str) :
  In x [lit "ctrl"; lit "shift"]
  <-> In x [lit "shift"; lit "ctrl"; lit "ctrl"].
Proof.
  cbn. split.
  - intros [H | [H | []]]; [ right; left | left ]; exact H.
  - intros [H | [H | [H | []]]]; [ right; left | left | left ]; exact H.
Defined.

(** X17, at [ctrl+shift+a] and [shift+ctrl+ctrl+a]. *)
Lemma parse_shortcut_modifier_set_witness :
  spec_of [lit "ctrl"; lit "shift"] (lit "a") = lit "ctrl+shift+a"
  /\ spec_of [lit "shift"; lit "ctrl"; lit "ctrl"] (lit "a")
     = lit "shift+ctrl+ctrl+a"
  /\ parse_shortcut ascii_upper example_functional_key_name_aliases
       example_character_key_name_aliases
       (spec_of [lit "ctrl"; lit "shift"] (lit "a"))
     = parse_shortcut ascii_upper example_functional_key_name_aliases
         example_character_key_name_aliases
         (spec_of [lit "shift"; lit "ctrl"; lit "ctrl"] (lit "a")).
Proof.
  split; [ reflexivity | split; [ reflexivity | ] ].
  refine (parse_shortcut_modifier_set ascii_upper
            example_functional_key_name_aliases
            example_character_key_name_aliases
            [lit "ctrl"; lit "shift"] [lit "shift"; lit "ctrl"; lit "ctrl"]
            (lit "a") _ _ no_plus_a _ same_tokens_ctrl_shift).
  - repeat constructor; [ exact no_plus_ctrl | exact no_plus_shift ].
  - repeat constructor;
      [ exact no_plus_shift | exact no_plus_ctrl | exact no_plus_ctrl ].
  - discriminate.
Defined.

(** X18, at the payload [13;5] with the trailers [~] and [x]. *)
Lemma decode_other_trailers_alike_witness :
  decode_key_event ascii_isspace ascii_decimal default_max_str_digits
      (lit "13;5") (lit "~")
  = decode_key_event ascii_isspace ascii_decimal default_max_str_digits
      (lit "13;5") (lit "x").
Proof.
  exact (decode_other_trailers_alike ascii_isspace ascii_decimal
           default_max_str_digits (lit "13;5") (lit "~") (lit "x")
           eq_refl eq_refl eq_refl eq_refl).
Defined.

(** X19, at the key [a] with mods 16, which no boolean reflects: the
    encoder's output is decoded, to mods 0. *)
Lemma encoded_is_decodable_witness :
  exists e',
    decode_encoded ascii_isspace ascii_decimal default_max_str_digits
      (mkKeyEvent EventType.PRESS 16 (lit "a") [] [] []
         false false false false)
    = Return e'
    /\ type e' = EventType.PRESS
    /\ text e' = []
    /\ 0 <= mods e' <= 15.
Proof.
  exact (encoded_is_decodable ascii_isspace ascii_decimal default_max_str_digits
           (mkKeyEvent EventType.PRESS 16 (lit "a") [] [] []
              false false false false)
           (CSI ++ lit "97u")
           wf_str_lit_a wf_str_empty wf_str_empty wf_str_empty eq_refl).
Defined.

Lemma x_in_second_section : In (lit "x") (split 58 (lit "x")).
Proof. now left. Defined.

(** X20, at the payload [97;x]. *)
Lemma decode_rejects_malformed_subfield_witness :
  decode_key_event ascii_isspace ascii_decimal default_max_str_digits
      (lit "97;x") (lit "u")
  <> Return plain_A.
Proof.
  refine (decode_rejects_malformed_subfield ascii_isspace ascii_decimal
            default_max_str_digits (lit "97;x") (lit "u") 1 (lit "x") (lit "x")
            ValueError plain_A _ eq_refl x_in_second_section _ eq_refl).
  - repeat constructor.
  - discriminate.
Defined.

(** X21, at the legacy sequence [27 u]. *)
Lemma decoded_keynum_range_witness :
  decoded_keynum ascii_isspace ascii_decimal default_max_str_digits
      (lit "27") (lit "u")
  = Return 27
  /\ 0 <= 27 <= 1114111.
Proof.
  split; [ reflexivity | ].
  exact (decoded_keynum_range ascii_isspace ascii_decimal
           default_max_str_digits (lit "27") (lit "u") ESCAPE_key 27
           eq_refl eq_refl).
Defined.

